(** * gollum: the WebSocket bridge to a streaming Ollama backend

    A shallow embedding of [main.go]: the per-connection read loop
    [handleWebSocket] and the backend client [queryOllamaStreaming], over
    executable models of the three libraries the program drives
    ([encoding/json], [net/http], [gorilla/websocket]).

    Go strings are byte sequences and are modelled by [string]; effects
    (frames written to the client, requests posted, the response body being
    closed, sleeps, log lines) are recorded in order in a trace that every
    operation threads through. *)

From Stdlib Require Import Ascii String NArith.
From stdpp Require Import base strings gmap list.
From Equations Require Import Equations.

(** ** Go's [error] values

    A nil error is [None] of [option error]. *)

Inductive error :=
| SyntaxError (msg : string)          (* *json.SyntaxError *)
| UnmarshalTypeError (field : string) (* *json.UnmarshalTypeError *)
| ErrUnexpectedEOF                    (* io.ErrUnexpectedEOF *)
| EOF                                 (* io.EOF *)
| UrlError (msg : string)             (* *url.Error from http.Post: refused, DNS, ... *)
| CloseError (msg : string)           (* websocket: peer gone or transport failure *)
| HandshakeError (msg : string).      (* websocket.Upgrader.Upgrade failure *)

(** ** [encoding/json]: scanner, unquoting and the stream decoder *)

Module json.

(** A decoded JSON value.  Numbers keep their literal: nothing in the program
    looks inside one. *)
#[warnings="-register-all"] Inductive value :=
| Null
| Bool (b : bool)
| Number (lit : string)
| Str (s : string)
| Array (elems : list value)
| Object (pairs : list (string * value)).

Definition byte (c : ascii) : N := N_of_ascii c.

(** The double quote. *)
Definition quote : ascii := "034"%char.
Definition chr (n : N) : ascii := ascii_of_N n.

Definition isSpace (c : ascii) : bool :=
  (c =? " ")%char || (c =? "009")%char || (c =? "013")%char || (c =? "010")%char.

Definition isDigit (c : ascii) : bool := (48 <=? byte c)%N && (byte c <=? 57)%N.
Definition isDigit19 (c : ascii) : bool := (49 <=? byte c)%N && (byte c <=? 57)%N.

Definition hexval (c : ascii) : option N :=
  let b := byte c in
  if (48 <=? b)%N && (b <=? 57)%N then Some (b - 48)%N
  else if (97 <=? b)%N && (b <=? 102)%N then Some (b - 97 + 10)%N
  else if (65 <=? b)%N && (b <=? 70)%N then Some (b - 65 + 10)%N
  else None.

Definition isHex (c : ascii) : bool :=
  match hexval c with Some _ => true | None => false end.

(** *** UTF-8 ([unicode/utf8]) *)

Definition RuneError : N := 65533.

(** [utf8.EncodeRune]: surrogates and out-of-range runes encode U+FFFD. *)
Definition EncodeRune (r : N) : list ascii :=
  if (r <? 128)%N then [chr r]
  else if (r <? 2048)%N then
    [chr (192 + N.shiftr r 6); chr (128 + N.land r 63)]
  else if ((55296 <=? r)%N && (r <=? 57343)%N) || (1114111 <? r)%N then
    [chr 239; chr 191; chr 189]
  else if (r <? 65536)%N then
    [chr (224 + N.shiftr r 12); chr (128 + N.land (N.shiftr r 6) 63);
     chr (128 + N.land r 63)]
  else
    [chr (240 + N.shiftr r 18); chr (128 + N.land (N.shiftr r 12) 63);
     chr (128 + N.land (N.shiftr r 6) 63); chr (128 + N.land r 63)].

Definition inRange (lo hi : N) (c : ascii) : bool :=
  (lo <=? byte c)%N && (byte c <=? hi)%N.

Definition isCont (c : ascii) : bool := inRange 128 191 c.

(** Length in bytes of the well-formed UTF-8 sequence [s] starts with, or [0]
    when [utf8.DecodeRune] would answer [(RuneError, 1)]. *)
Definition runeLen (s : list ascii) : nat :=
  match s with
  | c0 :: c1 :: t =>
      let b := byte c0 in
      if inRange 194 223 c0 then (if isCont c1 then 2 else 0)
      else
        let second :=
          if (b =? 224)%N then inRange 160 191 c1
          else if (b =? 237)%N then inRange 128 159 c1
          else if (b =? 240)%N then inRange 144 191 c1
          else if (b =? 244)%N then inRange 128 143 c1
          else isCont c1 in
        if inRange 224 239 c0 then
          match t with
          | c2 :: _ => if second && isCont c2 then 3 else 0
          | [] => 0
          end
        else if inRange 240 244 c0 then
          match t with
          | c2 :: c3 :: _ => if second && isCont c2 && isCont c3 then 4 else 0
          | _ => 0
          end
        else 0
  | _ => 0
  end.

(** *** Unquoting string literals ([unquoteBytes]) *)

(** [getu4]: the code unit of a leading [\uXXXX]. *)
Definition getu4 (s : list ascii) : option N :=
  match s with
  | bs :: u :: a :: b :: c :: d :: _ =>
      if (bs =? "\")%char && (u =? "u")%char then
        match hexval a, hexval b, hexval c, hexval d with
        | Some x, Some y, Some z, Some w => Some (((x * 16 + y) * 16 + z) * 16 + w)%N
        | _, _, _, _ => None
        end
      else None
  | _ => None
  end.

Definition isSurrogate (r : N) : bool := (55296 <=? r)%N && (r <? 57344)%N.

(** [utf16.DecodeRune]. *)
Definition DecodeSurrogates (r1 r2 : N) : N :=
  if (55296 <=? r1)%N && (r1 <? 56320)%N && (56320 <=? r2)%N && (r2 <? 57344)%N
  then ((r1 - 55296) * 1024 + (r2 - 56320) + 65536)%N
  else RuneError.

Definition simpleEscape (c : ascii) : option ascii :=
  if (c =? quote)%char then Some quote
  else if (c =? "\")%char then Some "\"%char
  else if (c =? "/")%char then Some "/"%char
  else if (c =? "b")%char then Some "008"%char
  else if (c =? "f")%char then Some "012"%char
  else if (c =? "n")%char then Some "010"%char
  else if (c =? "r")%char then Some "013"%char
  else if (c =? "t")%char then Some "009"%char
  else None.

(** One round of the loop of [unquoteBytes]: the bytes written and the number
    of input bytes read ([r += size]).  The scanner has validated the literal
    before, so the escapes met here are well formed. *)
Definition unquoteOne (s : list ascii) : list ascii * nat :=
  match s with
  | [] => ([], 1)
  | c :: rest =>
      if (c =? "\")%char then
        match rest with
        | [] => ([], 1)
        | e :: _ =>
            if (e =? "u")%char then
              match getu4 s with
              | None => ([], 2)
              | Some rr =>
                  if isSurrogate rr then
                    match getu4 (drop 6 s) with
                    | Some rr1 =>
                        let dec := DecodeSurrogates rr rr1 in
                        if (dec =? RuneError)%N then (EncodeRune RuneError, 6)
                        else (EncodeRune dec, 12)
                    | None => (EncodeRune RuneError, 6)
                    end
                  else (EncodeRune rr, 6)
              end
            else
              match simpleEscape e with
              | Some x => ([x], 2)
              | None => ([], 2)
              end
        end
      else if (byte c <? 128)%N then ([c], 1)
      else
        match runeLen s with
        | 0 => (EncodeRune RuneError, 1)
        | n => (take n s, n)
        end
  end.

Fixpoint unquoteFrom (skip : nat) (s : list ascii) : list ascii :=
  match s with
  | [] => []
  | _ :: rest =>
      match skip with
      | S k => unquoteFrom k rest
      | 0 => let '(out, n) := unquoteOne s in out ++ unquoteFrom (pred n) rest
      end
  end.

Definition unquote (raw : list ascii) : string :=
  string_of_list_ascii (unquoteFrom 0 raw).

(** *** The scanner ([scanner.go])

    A pushdown automaton stepped one byte at a time.  [parseState] is the
    stack of open containers; each entry also carries what has been decoded
    of its container so far, most recent first. *)

Inductive state :=
| stateBeginValueOrEmpty | stateBeginValue | stateBeginStringOrEmpty
| stateBeginString | stateEndValue
| stateInString | stateInStringEsc | stateInStringEscU | stateInStringEscU1
| stateInStringEscU12 | stateInStringEscU123
| stateNeg | state1 | state0 | stateDot | stateDot0 | stateE | stateESign
| stateE0
| stateT | stateTr | stateTru | stateF | stateFa | stateFal | stateFals
| stateN | stateNu | stateNul.

Inductive frame :=
| parseObjectKey (pairs : list (string * value)) (key : option string)
    (* [key = None]: a key is expected or being read; [Some k]: read, ':' expected *)
| parseObjectValue (pairs : list (string * value)) (key : option string)
    (* [key = Some k]: the value of [k] is being read; [None]: pair complete *)
| parseArrayValue (elems : list value).

Record scanner := mkScanner {
  step : state;
  parseState : list frame;
  lit : list ascii   (* bytes of the string or number being read, last first *)
}.

Inductive scan :=
| scanContinue (s : scanner)
| scanEnd (v : value) (consumed : bool)
    (* top-level value complete; [consumed]: the current byte is part of it *)
| scanError (e : error).

Definition maxNestingDepth : N := 10000.

Definition serror (context : string) : scan :=
  scanError (SyntaxError (String.append "invalid character " context)).

Definition goto (st : state) (ps : list frame) (l : list ascii) : scan :=
  scanContinue (mkScanner st ps l).

Definition pushParseState (f : frame) (ps : list frame) (success : state) : scan :=
  if (N.of_nat (S (length ps)) <=? maxNestingDepth)%N
  then goto success (f :: ps) []
  else scanError (SyntaxError "exceeded max depth").

(** A value has just been completed inside [ps]. *)
Definition endOfValue (v : value) (ps : list frame) : scan :=
  match ps with
  | [] => scanEnd v true
  | parseArrayValue elems :: ps' =>
      goto stateEndValue (parseArrayValue (v :: elems) :: ps') []
  | parseObjectKey pairs None :: ps' =>
      match v with
      | Str k => goto stateEndValue (parseObjectKey pairs (Some k) :: ps') []
      | _ => serror "looking for beginning of object key string"
      end
  | parseObjectValue pairs (Some k) :: ps' =>
      goto stateEndValue (parseObjectValue ((k, v) :: pairs) None :: ps') []
  | _ => serror "after value"
  end.

(** [stateEndValue]: the byte after a value, inside a container. *)
Definition endValue (ps : list frame) (c : ascii) : scan :=
  match ps with
  | [] => serror "after top-level value"
  | f :: ps' =>
      if isSpace c then goto stateEndValue ps []
      else
        match f with
        | parseObjectKey pairs (Some k) =>
            if (c =? ":")%char
            then goto stateBeginValue (parseObjectValue pairs (Some k) :: ps') []
            else serror "after object key"
        | parseObjectValue pairs None =>
            if (c =? ",")%char
            then goto stateBeginString (parseObjectKey pairs None :: ps') []
            else if (c =? "}")%char then endOfValue (Object (rev pairs)) ps'
            else serror "after object key:value pair"
        | parseArrayValue elems =>
            if (c =? ",")%char then goto stateBeginValue ps []
            else if (c =? "]")%char then endOfValue (Array (rev elems)) ps'
            else serror "after array element"
        | _ => serror "after value"
        end
  end.

(** A numeric literal ended before the byte [c]. *)
Definition endNumber (ps : list frame) (l : list ascii) (c : ascii) : scan :=
  let v := Number (string_of_list_ascii (rev l)) in
  match ps with
  | [] => scanEnd v false
  | _ =>
      match endOfValue v ps with
      | scanContinue s' => endValue (parseState s') c
      | r => r
      end
  end.

Definition beginValue (ps : list frame) (c : ascii) : scan :=
  if isSpace c then goto stateBeginValue ps []
  else if (c =? "{")%char then pushParseState (parseObjectKey [] None) ps stateBeginStringOrEmpty
  else if (c =? "[")%char then pushParseState (parseArrayValue []) ps stateBeginValueOrEmpty
  else if (c =? quote)%char then goto stateInString ps []
  else if (c =? "-")%char then goto stateNeg ps [c]
  else if (c =? "0")%char then goto state0 ps [c]
  else if (c =? "t")%char then goto stateT ps []
  else if (c =? "f")%char then goto stateF ps []
  else if (c =? "n")%char then goto stateN ps []
  else if isDigit19 c then goto state1 ps [c]
  else serror "looking for beginning of value".

Definition beginString (ps : list frame) (c : ascii) : scan :=
  if isSpace c then goto stateBeginString ps []
  else if (c =? quote)%char then goto stateInString ps []
  else serror "looking for beginning of object key string".

Definition expect (want : ascii) (next : state) (ps : list frame) (c : ascii)
    (context : string) : scan :=
  if (c =? want)%char then goto next ps [] else serror context.

Definition stepNum0 (ps : list frame) (l : list ascii) (c : ascii) : scan :=
  if (c =? ".")%char then goto stateDot ps (c :: l)
  else if (c =? "e")%char || (c =? "E")%char then goto stateE ps (c :: l)
  else endNumber ps l c.

Definition stepESign (ps : list frame) (l : list ascii) (c : ascii) : scan :=
  if isDigit c then goto stateE0 ps (c :: l)
  else serror "in exponent of numeric literal".

(** [s.step(s, c)]. *)
Definition stepByte (s : scanner) (c : ascii) : scan :=
  let ps := parseState s in
  let l := lit s in
  match step s with
  | stateBeginValueOrEmpty =>
      if isSpace c then goto stateBeginValueOrEmpty ps []
      else if (c =? "]")%char then endValue ps c
      else beginValue ps c
  | stateBeginValue => beginValue ps c
  | stateBeginStringOrEmpty =>
      if isSpace c then goto stateBeginStringOrEmpty ps []
      else if (c =? "}")%char then
        match ps with
        | parseObjectKey pairs _ :: ps' => endValue (parseObjectValue pairs None :: ps') c
        | _ => serror "after value"
        end
      else beginString ps c
  | stateBeginString => beginString ps c
  | stateEndValue => endValue ps c
  | stateInString =>
      if (c =? quote)%char then endOfValue (Str (unquote (rev l))) ps
      else if (c =? "\")%char then goto stateInStringEsc ps (c :: l)
      else if (byte c <? 32)%N then serror "in string literal"
      else goto stateInString ps (c :: l)
  | stateInStringEsc =>
      if (c =? "u")%char then goto stateInStringEscU ps (c :: l)
      else match simpleEscape c with
           | Some _ => goto stateInString ps (c :: l)
           | None => serror "in string escape code"
           end
  | stateInStringEscU =>
      if isHex c then goto stateInStringEscU1 ps (c :: l) else serror "in \u hexadecimal character escape"
  | stateInStringEscU1 =>
      if isHex c then goto stateInStringEscU12 ps (c :: l) else serror "in \u hexadecimal character escape"
  | stateInStringEscU12 =>
      if isHex c then goto stateInStringEscU123 ps (c :: l) else serror "in \u hexadecimal character escape"
  | stateInStringEscU123 =>
      if isHex c then goto stateInString ps (c :: l) else serror "in \u hexadecimal character escape"
  | stateNeg =>
      if (c =? "0")%char then goto state0 ps (c :: l)
      else if isDigit19 c then goto state1 ps (c :: l)
      else serror "in numeric literal"
  | state1 =>
      if isDigit c then goto state1 ps (c :: l) else stepNum0 ps l c
  | state0 => stepNum0 ps l c
  | stateDot =>
      if isDigit c then goto stateDot0 ps (c :: l)
      else serror "after decimal point in numeric literal"
  | stateDot0 =>
      if isDigit c then goto stateDot0 ps (c :: l)
      else if (c =? "e")%char || (c =? "E")%char then goto stateE ps (c :: l)
      else endNumber ps l c
  | stateE =>
      if (c =? "+")%char || (c =? "-")%char then goto stateESign ps (c :: l)
      else stepESign ps l c
  | stateESign => stepESign ps l c
  | stateE0 =>
      if isDigit c then goto stateE0 ps (c :: l) else endNumber ps l c
  | stateT => expect "r" stateTr ps c "in literal true (expecting 'r')"
  | stateTr => expect "u" stateTru ps c "in literal true (expecting 'u')"
  | stateTru =>
      if (c =? "e")%char then endOfValue (Bool true) ps
      else serror "in literal true (expecting 'e')"
  | stateF => expect "a" stateFa ps c "in literal false (expecting 'a')"
  | stateFa => expect "l" stateFal ps c "in literal false (expecting 'l')"
  | stateFal => expect "s" stateFals ps c "in literal false (expecting 's')"
  | stateFals =>
      if (c =? "e")%char then endOfValue (Bool false) ps
      else serror "in literal false (expecting 'e')"
  | stateN => expect "u" stateNu ps c "in literal null (expecting 'u')"
  | stateNu => expect "l" stateNul ps c "in literal null (expecting 'l')"
  | stateNul =>
      if (c =? "l")%char then endOfValue Null ps
      else serror "in literal null (expecting 'l')"
  end.

(** *** The stream decoder ([stream.go])

    The decoder reads from an [io.Reader]; what matters of it is the bytes not
    yet consumed.  A read error in place of the end of the input is not told
    apart: [More] answers [false] on either, and [Decode] fails on either when
    it strikes in the middle of a value. *)

Definition Decoder := string.

Definition NewDecoder (r : string) : Decoder := r.

Definition reset : scanner := mkScanner stateBeginValue [] [].

(** [readValue]: scan one value off the front of the input. *)
Fixpoint readValueFrom (s : scanner) (buf : string) : error + (value * string) :=
  match buf with
  | EmptyString =>
      (* the input ended: a number may end here, anything else is cut short *)
      match stepByte s " " with
      | scanEnd v _ => inr (v, EmptyString)
      | _ =>
          match step s, parseState s with
          | stateBeginValue, [] => inl EOF
          | _, _ => inl ErrUnexpectedEOF
          end
      end
  | String c rest =>
      match stepByte s c with
      | scanContinue s' => readValueFrom s' rest
      | scanEnd v true => inr (v, rest)
      | scanEnd v false => inr (v, buf)
      | scanError e => inl e
      end
  end.

Definition readValue (dec : Decoder) : error + (value * Decoder) :=
  readValueFrom reset dec.

(** [peek]: the next byte that is not white space. *)
Fixpoint peek (dec : Decoder) : option ascii :=
  match dec with
  | EmptyString => None
  | String c rest => if isSpace c then peek rest else Some c
  end.

(** [func (dec *Decoder) More() bool] *)
Definition More (dec : Decoder) : bool :=
  match peek dec with
  | Some c => negb (c =? "]")%char && negb (c =? "}")%char
  | None => false
  end.

(** What [Unmarshal] does for a target type: [unmarshal v t] stores the value
    [v] into the target [t] and answers the target afterwards with the first
    error met (a type mismatch does not stop the remaining fields from being
    stored). *)
Class Unmarshaler (T : Type) := unmarshal : value -> T -> T * option error.

(** [func (dec *Decoder) Decode(v any) error]: the target after the call, the
    error, and the decoder after the call. *)
Definition Decode {T} `{Unmarshaler T} (dec : Decoder) (v : T)
    : T * option error * Decoder :=
  match readValue dec with
  | inl e => (v, Some e, dec)
  | inr (val, rest) => (unmarshal val v, rest)
  end.

(** *** Matching object keys to struct fields *)

(** [foldName]: ASCII letters in upper case; the only other runes whose fold
    is an ASCII letter are U+017F (to S) and U+212A (to K). *)
Fixpoint foldName (s : list ascii) : list ascii :=
  match s with
  | [] => []
  | c :: t =>
      if inRange 97 122 c then chr (byte c - 32) :: foldName t
      else
        match t with
        | c1 :: t1 =>
            if (byte c =? 197)%N && (byte c1 =? 191)%N then "S"%char :: foldName t1
            else
              match t1 with
              | c2 :: t2 =>
                  if (byte c =? 226)%N && (byte c1 =? 132)%N && (byte c2 =? 170)%N
                  then "K"%char :: foldName t2
                  else c :: foldName t
              | [] => c :: foldName t
              end
        | [] => c :: foldName t
        end
  end.

(** A key selects the field named [name] when it is that name exactly or
    folds to the same name. *)
Definition keyMatches (key name : string) : bool :=
  bool_decide (key = name)
  || bool_decide (foldName (list_ascii_of_string key) = foldName (list_ascii_of_string name)).

(** *** Numbers stored into an [interface{}] ([convertNumber])

    A number that lands in an [interface{}] is converted by
    [strconv.ParseFloat(s, 64)], which fails when the value rounds beyond the
    largest float64, that is from [2^1024 - 2^970] on. *)

Record decimal := mkDecimal {
  mantissa : N;     (* the digits before the exponent, read as one integer *)
  fraction : N;     (* how many of them stand after the point *)
  exponent : N;     (* the digits of the exponent *)
  exponentNeg : bool;
  part : N          (* 0: integer part, 1: fraction, 2: exponent *)
}.

Definition readDecimal (d : decimal) (c : ascii) : decimal :=
  let (m, f, e, neg, p) := d in
  if isDigit c then
    let v := (byte c - 48)%N in
    if (p =? 0)%N then mkDecimal (m * 10 + v) f e neg p
    else if (p =? 1)%N then mkDecimal (m * 10 + v) (f + 1) e neg p
    else mkDecimal m f (e * 10 + v) neg p
  else if (c =? ".")%char then mkDecimal m f e neg 1
  else if (c =? "e")%char || (c =? "E")%char then mkDecimal m f e neg 2
  else if (c =? "-")%char && (p =? 2)%N then mkDecimal m f e true p
  else d.

Definition fitsFloat64 (lit : string) : bool :=
  let d := foldl readDecimal (mkDecimal 0 0 0 false 0) (list_ascii_of_string lit) in
  let scale :=
    ((if exponentNeg d then - Z.of_N (exponent d) else Z.of_N (exponent d))
     - Z.of_N (fraction d))%Z in
  let limit := (2 ^ 1024 - 2 ^ 970)%Z in
  let m := Z.of_N (mantissa d) in
  if (0 <=? scale)%Z then (m * 10 ^ scale <? limit)%Z
  else (m <? limit * 10 ^ (- scale))%Z.

(** Every number inside a value converts. *)
Fixpoint numbersFit (v : value) : bool :=
  match v with
  | Number lit => fitsFloat64 lit
  | Array elems => forallb numbersFit elems
  | Object pairs => forallb (fun kv => let (_, x) := kv : string * value in numbersFit x) pairs
  | _ => true
  end.

End json.

(** The decoder only moves forward: a value that was read took at least one
    byte off the input.  The loops below terminate by this. *)

Lemma readValueFrom_length buf : forall s v rest,
  json.readValueFrom s buf = inr (v, rest) ->
  String.length rest <= String.length buf.
Proof.
  induction buf as [|c buf IH]; intros s v rest; simpl.
  - destruct (json.stepByte s " ") as [?|? ?|?]; [| intros [= <- <-]; simpl; lia |];
      destruct (json.step s), (json.parseState s); discriminate.
  - destruct (json.stepByte s c) as [s'|v' [|]|e].
    + intros H. apply IH in H. lia.
    + intros [= <- <-]. lia.
    + intros [= <- <-]. simpl. lia.
    + discriminate.
Qed.

Lemma beginValue_not_end ps c v b : json.beginValue ps c <> json.scanEnd v b.
Proof.
  unfold json.beginValue, json.pushParseState, json.goto, json.serror.
  repeat case_match; discriminate.
Qed.

Lemma readValue_shorter dec v rest :
  json.readValue dec = inr (v, rest) -> String.length rest < String.length dec.
Proof.
  unfold json.readValue. destruct dec as [|c dec]; simpl.
  - discriminate.
  - change (json.stepByte json.reset c) with (json.beginValue [] c).
    pose proof (beginValue_not_end [] c) as Hne.
    destruct (json.beginValue [] c) as [s'|v' b|e].
    + intros H. apply readValueFrom_length in H. lia.
    + destruct (Hne v' b eq_refl).
    + discriminate.
Qed.

Lemma Decode_shorter {T} `{json.Unmarshaler T} dec (t t' : T) dec' :
  json.Decode dec t = (t', None, dec') -> String.length dec' < String.length dec.
Proof.
  unfold json.Decode. destruct (json.readValue dec) as [e|[v rest]] eqn:E.
  - discriminate.
  - intros [= _ <-]. eapply readValue_shorter, E.
Qed.

(** ** [gorilla/websocket]: the server side of one connection *)

Module websocket.

(** What is left to arrive on the connection: the payloads of the data
    messages the peer still sends.  When none is left the peer is gone and
    reading fails. *)
Definition Conn := list string.

(** [NextReader]. *)
Definition NextReader (c : Conn) : (error + string) * Conn :=
  match c with
  | [] => (inl (CloseError "close 1006 (abnormal closure)"), [])
  | payload :: c' => (inr payload, c')
  end.

(** [func (c *Conn) ReadJSON(v interface{}) error]: decode the one value of
    the next message into [v]. *)
Definition ReadJSON {T} `{json.Unmarshaler T} (c : Conn) (v : T)
    : T * option error * Conn :=
  match NextReader c with
  | (inl err, c') => (v, Some err, c')
  | (inr r, c') =>
      let '(v', err, _) := json.Decode (json.NewDecoder r) v in
      (v', match err with Some EOF => Some ErrUnexpectedEOF | _ => err end, c')
  end.

End websocket.

Lemma ReadJSON_shorter {T} `{json.Unmarshaler T} c (v v' : T) c' :
  websocket.ReadJSON c v = (v', None, c') -> length c' < length c.
Proof.
  unfold websocket.ReadJSON. destruct c as [|p c]; simpl.
  - discriminate.
  - destruct (json.Decode _ v) as [[? ?] ?]. intros [= _ _ <-]. lia.
Qed.

(** ** [net/http]: what a POST comes back with *)

Module http.

(** [http.Post] answers an error only when no response was obtained
    (connection refused, DNS failure, ...).  A response with a status other
    than 2xx is a response: it comes back with a nil error.  The body is the
    finite sequence of bytes it delivers; a backend that streams for ever is
    not modelled. *)
Record Response := mkResponse {
  StatusCode : N;
  Body : string
}.

End http.

(** ** The types of [main.go] *)

Record OllamaRequest := mkRequest {
  Model : string;
  Prompt : string;
  Stream : bool
}.

Record OllamaStreamResponse := mkStreamResponse {
  Response : string;
  Done : bool
}.

(** The zero value a [var streamResp OllamaStreamResponse] starts from. *)
Definition zeroFragment : OllamaStreamResponse := mkStreamResponse EmptyString false.

(** The three frames the server writes, each a [map[string]string]:
    [{"type":"response_start"}], [{"type":"response_chunk","content":c}] and
    [{"type":"response_end"}]. *)
Inductive OutboundFrame :=
| response_start
| response_chunk (content : string)
| response_end.

(** *** Unmarshalling into the two targets the program decodes into *)

Definition saveError (saved : option error) (e : error) : option error :=
  match saved with
  | None => Some e
  | Some _ => saved
  end.

Definition storeField (acc : OllamaStreamResponse * option error)
    (kv : string * json.value) : OllamaStreamResponse * option error :=
  let '(t, saved) := acc in
  let '(key, v) := kv in
  if json.keyMatches key "response" then
    match v with
    | json.Str s => (mkStreamResponse s (Done t), saved)
    | json.Null => (t, saved)
    | _ => (t, saveError saved (UnmarshalTypeError "response"))
    end
  else if json.keyMatches key "done" then
    match v with
    | json.Bool b => (mkStreamResponse (Response t) b, saved)
    | json.Null => (t, saved)
    | _ => (t, saveError saved (UnmarshalTypeError "done"))
    end
  else (t, saved).

#[global] Instance unmarshal_OllamaStreamResponse
    : json.Unmarshaler OllamaStreamResponse := fun v t =>
  match v with
  | json.Null => (t, None)
  | json.Object pairs => foldl storeField (t, None) pairs
  | _ => (t, Some (UnmarshalTypeError "OllamaStreamResponse"))
  end.

(** [map[string]interface{}]: a later duplicate of a key replaces the earlier
    one; [null] leaves the nil map, which reads as the empty one; a number
    that does not convert to a float64 is an error. *)
#[global] Instance unmarshal_map : json.Unmarshaler (gmap string json.value) :=
  fun v m =>
  match v with
  | json.Null => (∅, None)
  | json.Object pairs =>
      (foldl (fun m kv => <[kv.1 := kv.2]> m) m pairs,
       if json.numbersFit v then None else Some (UnmarshalTypeError "number"))
  | _ => (m, Some (UnmarshalTypeError "map[string]interface {}"))
  end.

(** [x == "s"] for an interface value [x] fetched from the map: the key is
    present with a string equal to [s]. *)
Definition interfaceEq (x : option json.value) (s : string) : bool :=
  match x with
  | Some (json.Str s') => bool_decide (s' = s)
  | _ => false
  end.

(** [s, _ := x.(string)]: the zero string when [x] is not a string. *)
Definition assertString (x : option json.value) : string :=
  match x with
  | Some (json.Str s) => s
  | _ => EmptyString
  end.

(** ** Effects

    Each effect of the program is an event, and a run is the sequence of its
    events.  Every call site discards the error of a write to the client
    ([_ = conn.WriteJSON(...)]), so a write is recorded as the frame that was
    handed to the connection. *)

Inductive Event :=
| WriteJSON (frame : OutboundFrame)       (* conn.WriteJSON(frame) *)
| Post (url : string) (req : OllamaRequest) (* http.Post(url, "application/json", body) *)
| BodyClose                               (* resp.Body.Close() *)
| Sleep (ms : N)                          (* time.Sleep *)
| Printf (format : string) (err : error)  (* log.Printf(format, err) *)
| ConnClose.                              (* conn.Close() *)

Definition Trace := list Event.

Definition M (A : Type) : Type := Trace -> A * Trace.

#[global] Instance M_ret : MRet M := fun A a tr => (a, tr).
#[global] Instance M_bind : MBind M := fun A B f m tr =>
  let '(a, tr') := m tr in f a tr'.

Definition emit (e : Event) : M unit := fun tr => (tt, tr ++ [e]).

(** [defer cleanup] at the head of a body: [cleanup] runs when the body
    returns, whichever return it takes. *)
Definition defer {A} (cleanup : M unit) (body : M A) : M A :=
  a ← body; cleanup;; mret a.

Definition inspect {A} (a : A) : {b : A | a = b} := exist _ a eq_refl.

(** The frames written to the client, in order. *)
Definition frames (tr : Trace) : list OutboundFrame :=
  omap (fun e => match e with WriteJSON f => Some f | _ => None end) tr.

(** The requests posted to the backend, in order. *)
Definition requests (tr : Trace) : list OllamaRequest :=
  omap (fun e => match e with Post _ req => Some req | _ => None end) tr.

(** ** The program *)

Section Program.

(** The backend as the program meets it: what the [n]-th POST of the run (from
    [0]) comes back with, given the request sent. *)
Context (ollama : nat -> OllamaRequest -> error + http.Response).

(** [json.Marshal(reqBody)]: marshalling two strings and a bool cannot fail.
    The bytes stand in the model as the request they encode. *)
Definition Marshal (reqBody : OllamaRequest) : OllamaRequest * option error :=
  (reqBody, None).

Definition http_Post (url : string) (jsonData : OllamaRequest)
    : M (error + http.Response) := fun tr =>
  (ollama (length (requests tr)) jsonData, tr ++ [Post url jsonData]).

(** The loop of [queryOllamaStreaming]:
    [for decoder.More() { ... decoder.Decode(&streamResp) ... }]. *)
Equations? decodeLoop (callback : string -> bool -> M unit)
    (decoder : json.Decoder) (tr : Trace) : option error * Trace
    by wf (String.length decoder) lt :=
  decodeLoop callback decoder tr with inspect (json.More decoder) => {
    | exist _ false _ => (None, tr)
    | exist _ true _
        with inspect (json.Decode decoder zeroFragment) => {
        | exist _ (_, Some err, _) _ => (Some err, tr)
        | exist _ (streamResp, None, decoder') _ =>
            let tr1 := (callback (Response streamResp) (Done streamResp) tr).2 in
            if Done streamResp then (None, tr1)
            else
              (* Small delay to make streaming visually pleasant in the UI. *)
              decodeLoop callback decoder' (emit (Sleep 50) tr1).2 } }.
Proof.
  match goal with
  | H : json.Decode _ _ = _ |- _ => exact (Decode_shorter _ _ _ _ H)
  end.
Qed.

Definition queryOllamaStreaming (prompt : string)
    (callback : string -> bool -> M unit) : M (option error) :=
  let reqBody := {| Model := "llama2"; Prompt := prompt; Stream := true |} in
  match Marshal reqBody with
  | (_, Some err) => mret (Some err)
  | (jsonData, None) =>
      r ← http_Post "http://localhost:11434/api/generate" jsonData;
      match r with
      | inl err => mret (Some err)
      | inr resp =>
          defer (emit BodyClose)
            (decodeLoop callback (json.NewDecoder (http.Body resp)))
      end
  end.

(** The closure handed to [queryOllamaStreaming] by the session. *)
Definition forward (chunk : string) (done : bool) : M unit :=
  if negb done then emit (WriteJSON (response_chunk chunk))
  else emit (WriteJSON response_end).

Definition errorText : string :=
  "Sorry, I encountered an error processing your request.".

(** The body of [switch msg["type"]]. *)
Definition dispatch (msg : gmap string json.value) : M unit :=
  if interfaceEq (msg !! "type") "message" then
    let userMessage := assertString (msg !! "content") in
    emit (WriteJSON response_start);;
    err ← queryOllamaStreaming userMessage forward;
    match err with
    | Some err =>
        emit (Printf "Ollama query error: %v" err);;
        emit (WriteJSON (response_chunk errorText));;
        emit (WriteJSON response_end)
    | None => mret tt
    end
  else mret tt.

(** The [for] loop of [handleWebSocket]. *)
Equations? readLoop (conn : websocket.Conn) (tr : Trace) : unit * Trace
    by wf (length conn) lt :=
  readLoop conn tr
    with inspect (websocket.ReadJSON conn (∅ : gmap string json.value)) => {
    | exist _ (_, Some err, _) _ => emit (Printf "WebSocket read error: %v" err) tr
    | exist _ (msg, None, conn') _ => readLoop conn' (dispatch msg tr).2 }.
Proof.
  match goal with
  | H : websocket.ReadJSON _ _ = _ |- _ => exact (ReadJSON_shorter _ _ _ _ H)
  end.
Qed.

(** [upgrade] is what [upgrader.Upgrade(w, r, nil)] answers for the request. *)
Definition handleWebSocket (upgrade : error + websocket.Conn) : M unit :=
  match upgrade with
  | inl err => emit (Printf "WebSocket upgrade error: %v" err)
  | inr conn => defer (emit ConnClose) (readLoop conn)
  end.

End Program.

(** ** The backend stream as a sequence of fragments

    What the stream decoder yields of a response body when it is drained the
    way [queryOllamaStreaming] drains it: the fragments in stream order, up to
    and including the first one with [done=true], and how the sequence ends. *)

Inductive StreamEnd :=
| EndDone                  (* a fragment with done=true was delivered *)
| EndExhausted             (* no further object: the body ran out first *)
| EndError (err : error).  (* an object failed to decode *)

Equations? delivered (decoder : json.Decoder)
    : list OllamaStreamResponse * StreamEnd
    by wf (String.length decoder) lt :=
  delivered decoder with inspect (json.More decoder) => {
    | exist _ false _ => ([], EndExhausted)
    | exist _ true _ with inspect (json.Decode decoder zeroFragment) => {
        | exist _ (_, Some err, _) _ => ([], EndError err)
        | exist _ (fragment, None, decoder') _ =>
            if Done fragment then ([fragment], EndDone)
            else let '(rest, e) := delivered decoder' in (fragment :: rest, e) } }.
Proof.
  match goal with
  | H : json.Decode _ _ = _ |- _ => exact (Decode_shorter _ _ _ _ H)
  end.
Qed.

(** What one request to the backend produces: nothing and the error when the
    POST fails, the fragments of the body otherwise. *)
Definition produced (r : error + http.Response)
    : list OllamaStreamResponse * StreamEnd :=
  match r with
  | inl err => ([], EndError err)
  | inr resp => delivered (json.NewDecoder (http.Body resp))
  end.

(** The error [queryOllamaStreaming] returns for each way a stream ends. *)
Definition errorOf (e : StreamEnd) : option error :=
  match e with
  | EndError err => Some err
  | _ => None
  end.

(** Calling [callback] on each fragment in turn, pausing after each one that
    is not final. *)
Definition deliverOne (callback : string -> bool -> M unit)
    (fragment : OllamaStreamResponse) (tr : Trace) : Trace :=
  let tr1 := (callback (Response fragment) (Done fragment) tr).2 in
  if Done fragment then tr1 else (emit (Sleep 50) tr1).2.

Definition deliver (callback : string -> bool -> M unit)
    (fragments : list OllamaStreamResponse) (tr : Trace) : Trace :=
  foldl (fun tr fragment => deliverOne callback fragment tr) tr fragments.

(** The frame the session's callback writes for a fragment. *)
Definition frameOf (fragment : OllamaStreamResponse) : OutboundFrame :=
  if Done fragment then response_end else response_chunk (Response fragment).

(** The events of the session's callback being called on each fragment. *)
Definition forwarding (fragments : list OllamaStreamResponse) : Trace :=
  flat_map (fun fragment =>
              WriteJSON (frameOf fragment)
                :: if Done fragment then [] else [Sleep 50])
           fragments.

(** The request [queryOllamaStreaming] builds for a prompt. *)
Definition requestFor (prompt : string) : OllamaRequest :=
  {| Model := "llama2"; Prompt := prompt; Stream := true |}.

Definition endpoint : string := "http://localhost:11434/api/generate".

(** Only the last fragment of a sequence can be final, and it is exactly when
    the sequence ends by [EndDone]. *)
Definition wellEnded (fragments : list OllamaStreamResponse) (e : StreamEnd) : Prop :=
  match e with
  | EndDone =>
      exists init final,
        fragments = init ++ [final] /\ Done final = true /\
        Forall (fun fragment => Done fragment = false) init
  | _ => Forall (fun fragment => Done fragment = false) fragments
  end.

(** What the session adds when the backend client has returned. *)
Definition epilogue (e : StreamEnd) : Trace :=
  match e with
  | EndError err =>
      [Printf "Ollama query error: %v" err;
       WriteJSON (response_chunk errorText); WriteJSON response_end]
  | _ => []
  end.

(** The events of handling one message of type "message" after the request
    was posted, by what the backend answered. *)
Definition answered (r : error + http.Response) : Trace :=
  match r with
  | inl err => epilogue (EndError err)
  | inr resp =>
      forwarding (produced r).1 ++ [BodyClose] ++ epilogue (produced r).2
  end.

(** The prompt-handling sequence of the session for a prompt, as the "message"
    case of [dispatch] runs it. *)
Definition promptSequence (ollama : nat -> OllamaRequest -> error + http.Response)
    (prompt : string) : M unit :=
  emit (WriteJSON response_start);;
  err ← queryOllamaStreaming ollama prompt forward;
  match err with
  | Some err =>
      emit (Printf "Ollama query error: %v" err);;
      emit (WriteJSON (response_chunk errorText));;
      emit (WriteJSON response_end)
  | None => mret tt
  end.

(** ** Scenarios

    Concrete backends and client messages the properties are run on. *)

Definition always (resp : http.Response) : nat -> OllamaRequest -> error + http.Response :=
  fun _ _ => inr resp.

Definition refused : nat -> OllamaRequest -> error + http.Response :=
  fun _ _ => inl (UrlError "dial tcp 127.0.0.1:11434: connect: connection refused").

Definition newline : string := String "010" EmptyString.

(** JSON texts are written here with ['] standing for the double quote. *)
Definition js (s : string) : string :=
  string_of_list_ascii
    (map (fun c => if (c =? "'")%char then json.quote else c) (list_ascii_of_string s)).

Definition objA : string := js "{'response':'A','done':false}".
Definition objB : string := js "{'response':'B','done':true}".

(** ["Hel"], ["lo"], then the final fragment with empty text, one per line. *)
Definition helloBody : string :=
  String.concat newline
    [js "{'response':'Hel','done':false}";
     js "{'response':'lo','done':false}";
     js "{'response':'','done':true}"; EmptyString].

(** A final fragment that carries text of its own. *)
Definition byeBody : string :=
  String.concat newline
    [js "{'response':'Good','done':false}";
     js "{'response':'bye','done':true}"; EmptyString].

(** One fragment, then the body ends without any [done=true]. *)
Definition cutShortBody : string :=
  String.append (js "{'response':'Hi','done':false}") newline.

(** One fragment, then an object cut in the middle. *)
Definition brokenBody : string :=
  String.concat newline
    [js "{'response':'Hi','done':false}"; js "{'response':'the"].

(** What Ollama answers when the model is not installed: status 404. *)
Definition notFound : http.Response :=
  http.mkResponse 404
    (js "{'error':'model \'llama2\' not found, try pulling it first'}").

Definition promptHi : string := js "{'type':'message','content':'hi'}".
Definition msgHi : gmap string json.value :=
  <["content" := json.Str "hi"]> (<["type" := json.Str "message"]> ∅).

Definition ping : string := js "{'type':'ping'}".
Definition msgPing : gmap string json.value := <["type" := json.Str "ping"]> ∅.

Definition noContent : string := js "{'type':'message'}".
Definition msgNoContent : gmap string json.value :=
  <["type" := json.Str "message"]> ∅.

Definition numberContent : string := js "{'type':'message','content':42}".

Definition malformed : string := js "{'type':'message',".

(** ** Properties *)

Section Properties.

Context (ollama : nat -> OllamaRequest -> error + http.Response).

(** Lists of events and frames, brought to right-nested form. *)
Ltac list_norm :=
  repeat (progress (rewrite <- ?app_assoc, ?app_nil_r; simpl)).

(** *** The loops, unfolded once *)

Lemma decodeLoop_eq callback decoder tr :
  decodeLoop callback decoder tr =
  if json.More decoder then
    match json.Decode decoder zeroFragment with
    | (_, Some err, _) => (Some err, tr)
    | (streamResp, None, decoder') =>
        let tr1 := (callback (Response streamResp) (Done streamResp) tr).2 in
        if Done streamResp then (None, tr1)
        else decodeLoop callback decoder' (emit (Sleep 50) tr1).2
    end
  else (None, tr).
Proof.
  funelim (decodeLoop callback decoder tr);
    repeat match goal with
      | H : json.More _ = _ |- _ => rewrite H
      | H : json.Decode _ _ = _ |- _ => rewrite H
      end; reflexivity.
Qed.

Lemma delivered_eq decoder :
  delivered decoder =
  if json.More decoder then
    match json.Decode decoder zeroFragment with
    | (_, Some err, _) => ([], EndError err)
    | (fragment, None, decoder') =>
        if Done fragment then ([fragment], EndDone)
        else let '(rest, e) := delivered decoder' in (fragment :: rest, e)
    end
  else ([], EndExhausted).
Proof.
  funelim (delivered decoder);
    repeat match goal with
      | H : json.More _ = _ |- _ => rewrite H
      | H : json.Decode _ _ = _ |- _ => rewrite H
      end; reflexivity.
Qed.

Lemma readLoop_eq conn tr :
  readLoop ollama conn tr =
  match websocket.ReadJSON conn (∅ : gmap string json.value) with
  | (_, Some err, _) => emit (Printf "WebSocket read error: %v" err) tr
  | (msg, None, conn') => readLoop ollama conn' (dispatch ollama msg tr).2
  end.
Proof.
  funelim (readLoop ollama conn tr);
    repeat match goal with
      | H : websocket.ReadJSON _ _ = _ |- _ => rewrite H
      end; reflexivity.
Qed.

(** Induction along the decoder: to prove [P] of a decoder, assume it of the
    decoder left behind by a successful [Decode] of a fragment that is not
    final. *)
Lemma decoder_ind (P : json.Decoder -> Prop) :
  (forall decoder,
     (forall fragment decoder',
        json.More decoder = true ->
        json.Decode decoder zeroFragment = (fragment, None, decoder') ->
        Done fragment = false ->
        P decoder') ->
     P decoder) ->
  forall decoder, P decoder.
Proof.
  intros step decoder.
  remember (String.length decoder) as n eqn:Hn.
  revert decoder Hn.
  induction n as [n IH] using lt_wf_ind.
  intros decoder ->. apply step.
  intros fragment decoder' _ Hdec _.
  eapply IH; [|reflexivity]. exact (Decode_shorter _ _ _ _ Hdec).
Qed.

(** *** The loop of the backend client against the fragment sequence *)

Lemma decodeLoop_delivered callback decoder : forall tr,
  decodeLoop callback decoder tr =
  (errorOf (delivered decoder).2, deliver callback (delivered decoder).1 tr).
Proof.
  induction decoder as [decoder IH] using decoder_ind. intros tr.
  rewrite decodeLoop_eq, delivered_eq.
  destruct (json.More decoder) eqn:Hmore; [|reflexivity].
  destruct (json.Decode decoder zeroFragment) as [[fragment [err|]] decoder'] eqn:Hdec;
    [reflexivity|].
  destruct (Done fragment) eqn:Hdone; simpl.
  - unfold deliverOne. rewrite Hdone. reflexivity.
  - rewrite (IH _ _ eq_refl eq_refl Hdone).
    destruct (delivered decoder') as [rest e]. simpl.
    unfold deliverOne. rewrite Hdone. reflexivity.
Qed.

Lemma delivered_wellEnded decoder :
  wellEnded (delivered decoder).1 (delivered decoder).2.
Proof.
  induction decoder as [decoder IH] using decoder_ind.
  rewrite delivered_eq.
  destruct (json.More decoder) eqn:Hmore; [|constructor].
  destruct (json.Decode decoder zeroFragment) as [[fragment [err|]] decoder'] eqn:Hdec;
    [constructor|].
  destruct (Done fragment) eqn:Hdone.
  - exists [], fragment. auto.
  - specialize (IH _ _ eq_refl eq_refl Hdone).
    destruct (delivered decoder') as [rest e]. simpl in *.
    destruct e; simpl in *.
    + destruct IH as (init & final & -> & Hfin & Hinit).
      exists (fragment :: init), final. auto.
    + auto.
    + auto.
Qed.

Lemma produced_wellEnded r : wellEnded (produced r).1 (produced r).2.
Proof. destruct r as [err|resp]; [constructor|apply delivered_wellEnded]. Qed.

(** *** Frames written by the session's callback *)

Lemma frames_app tr1 tr2 : frames (tr1 ++ tr2) = frames tr1 ++ frames tr2.
Proof. apply omap_app. Qed.

Lemma frames_cons e tr :
  frames (e :: tr) = match e with WriteJSON f => f :: frames tr | _ => frames tr end.
Proof. destruct e; reflexivity. Qed.

Lemma requests_app tr1 tr2 : requests (tr1 ++ tr2) = requests tr1 ++ requests tr2.
Proof. apply omap_app. Qed.

Lemma deliver_app callback fragments1 fragments2 tr :
  deliver callback (fragments1 ++ fragments2) tr =
  deliver callback fragments2 (deliver callback fragments1 tr).
Proof. apply foldl_app. Qed.

Lemma deliver_forward fragments : forall tr,
  deliver forward fragments tr = tr ++ forwarding fragments.
Proof.
  induction fragments as [|fragment fragments IH]; intros tr.
  - simpl. by rewrite app_nil_r.
  - change (deliver forward (fragment :: fragments) tr)
      with (deliver forward fragments (deliverOne forward fragment tr)).
    rewrite IH. unfold deliverOne, forward, frameOf. simpl.
    unfold frameOf. destruct (Done fragment); simpl; rewrite <- !app_assoc; reflexivity.
Qed.

Lemma frames_forwarding fragments :
  frames (forwarding fragments) = map frameOf fragments.
Proof.
  induction fragments as [|fragment fragments IH]; [reflexivity|].
  unfold forwarding. simpl. fold (forwarding fragments).
  destruct (Done fragment); simpl; unfold frames in *; simpl; rewrite IH; reflexivity.
Qed.

Lemma requests_forwarding fragments : requests (forwarding fragments) = [].
Proof.
  induction fragments as [|fragment fragments IH]; [reflexivity|].
  unfold forwarding. simpl. fold (forwarding fragments).
  destruct (Done fragment); simpl; unfold requests in *; simpl; exact IH.
Qed.

Lemma frames_deliver_forward fragments tr :
  frames (deliver forward fragments tr) = frames tr ++ map frameOf fragments.
Proof. by rewrite deliver_forward, frames_app, frames_forwarding. Qed.

Lemma frameOf_not_final fragments :
  Forall (fun fragment => Done fragment = false) fragments ->
  map frameOf fragments = map response_chunk (map Response fragments).
Proof.
  induction 1 as [|fragment fragments Hd _ IH]; simpl; [reflexivity|].
  unfold frameOf at 1. rewrite Hd, IH. reflexivity.
Qed.

(** *** The backend client and the dispatch, in closed form *)

Lemma queryOllamaStreaming_eq prompt callback tr :
  queryOllamaStreaming ollama prompt callback tr =
  let tr0 := tr ++ [Post endpoint (requestFor prompt)] in
  match ollama (length (requests tr)) (requestFor prompt) with
  | inl err => (Some err, tr0)
  | inr resp =>
      let '(fragments, e) := delivered (json.NewDecoder (http.Body resp)) in
      (errorOf e, deliver callback fragments tr0 ++ [BodyClose])
  end.
Proof.
  unfold queryOllamaStreaming, Marshal, http_Post, defer, mbind, M_bind, mret, M_ret.
  fold (requestFor prompt). fold endpoint.
  destruct (ollama _ _) as [err|resp]; simpl; [reflexivity|].
  rewrite decodeLoop_delivered.
  destruct (delivered _) as [fragments e]. reflexivity.
Qed.

Lemma dispatch_message msg tr :
  interfaceEq (msg !! "type") "message" = true ->
  dispatch ollama msg tr =
  let prompt := assertString (msg !! "content") in
  (tt, tr ++ [WriteJSON response_start; Post endpoint (requestFor prompt)]
          ++ answered (ollama (length (requests tr)) (requestFor prompt))).
Proof.
  intros Htype. unfold dispatch. rewrite Htype.
  unfold mbind, M_bind. simpl.
  rewrite queryOllamaStreaming_eq. simpl.
  rewrite requests_app. simpl. rewrite app_nil_r.
  rewrite <- app_assoc. simpl.
  destruct (ollama _ _) as [err|resp]; simpl.
  - unfold emit. rewrite <- !app_assoc. reflexivity.
  - destruct (delivered _) as [fragments [| |err]]; simpl;
      rewrite deliver_forward;
      unfold emit, mret, M_ret; rewrite <- ?app_assoc; simpl; rewrite ?app_nil_r;
      reflexivity.
Qed.

Lemma dispatch_other msg tr :
  interfaceEq (msg !! "type") "message" = false ->
  dispatch ollama msg tr = (tt, tr).
Proof. intros Htype. unfold dispatch. rewrite Htype. reflexivity. Qed.

(** Nothing already in the trace is touched: the session only adds to it. *)
Lemma dispatch_extends msg tr : exists added, (dispatch ollama msg tr).2 = tr ++ added.
Proof.
  destruct (interfaceEq (msg !! "type") "message") eqn:Htype.
  - rewrite (dispatch_message _ _ Htype). simpl. eexists. reflexivity.
  - rewrite (dispatch_other _ _ Htype). exists []. by rewrite app_nil_r.
Qed.

(** The frames of handling one prompt, by what the backend produced. *)
Lemma frames_dispatch_message msg tr :
  interfaceEq (msg !! "type") "message" = true ->
  let r := ollama (length (requests tr)) (requestFor (assertString (msg !! "content"))) in
  frames (dispatch ollama msg tr).2 =
  frames tr ++ [response_start] ++ map frameOf (produced r).1
    ++ frames (epilogue (produced r).2).
Proof.
  intros Htype. rewrite (dispatch_message _ _ Htype). simpl.
  destruct (ollama _ _) as [err|resp]; simpl.
  - rewrite !frames_app. reflexivity.
  - rewrite frames_app, !frames_cons, frames_app, frames_forwarding, frames_cons.
    reflexivity.
Qed.

Lemma readLoop_extends conn : forall tr,
  exists added, readLoop ollama conn tr = (tt, tr ++ added).
Proof.
  remember (length conn) as n eqn:Hn. revert conn Hn.
  induction n as [n IH] using lt_wf_ind. intros conn -> tr.
  rewrite readLoop_eq.
  destruct (websocket.ReadJSON conn _) as [[msg [err|]] conn'] eqn:Hread.
  - eexists. reflexivity.
  - destruct (dispatch_extends msg tr) as [added1 ->].
    edestruct (IH (length conn')) as [added2 ->];
      [exact (ReadJSON_shorter _ _ _ _ Hread)|reflexivity|].
    rewrite <- app_assoc. eexists. reflexivity.
Qed.

Lemma promptSequence_dispatch msg tr :
  interfaceEq (msg !! "type") "message" = true ->
  dispatch ollama msg tr = promptSequence ollama (assertString (msg !! "content")) tr.
Proof. intros Htype. unfold dispatch. rewrite Htype. reflexivity. Qed.

Lemma query_forward_error prompt tr :
  (queryOllamaStreaming ollama prompt forward tr).1 =
  errorOf (produced (ollama (length (requests tr)) (requestFor prompt))).2.
Proof.
  rewrite queryOllamaStreaming_eq. simpl.
  destruct (ollama _ _) as [err|resp]; simpl; [reflexivity|].
  destruct (delivered _) as [fragments e]. reflexivity.
Qed.

(** *** The bracketing of a prompt that the backend terminated

    When the backend sequence ends by a final fragment or by a failure, the
    frames of the prompt are one [response_start], chunks, one
    [response_end]. *)
Lemma frames_bracket msg tr :
  interfaceEq (msg !! "type") "message" = true ->
  (produced (ollama (length (requests tr))
     (requestFor (assertString (msg !! "content"))))).2 <> EndExhausted ->
  exists texts,
    frames (dispatch ollama msg tr).2 =
    frames tr ++ [response_start] ++ map response_chunk texts ++ [response_end].
Proof.
  intros Htype Hend.
  pose proof (frames_dispatch_message msg tr Htype) as Hfr. simpl in Hfr.
  pose proof (produced_wellEnded
    (ollama (length (requests tr)) (requestFor (assertString (msg !! "content"))))) as Hw.
  destruct (produced _) as [fragments e]. simpl in *. rewrite Hfr.
  destruct e as [| |err]; simpl in *.
  - destruct Hw as (init & final & -> & Hfin & Hinit).
    exists (map Response init).
    rewrite map_app, (frameOf_not_final _ Hinit). simpl.
    unfold frameOf. rewrite Hfin. list_norm. reflexivity.
  - congruence.
  - exists (map Response fragments ++ [errorText]).
    rewrite (frameOf_not_final _ Hw), !map_app. list_norm. reflexivity.
Qed.

(** These frames sit between the frames written before and whatever the rest
    of the connection causes to be written: prompts are handled one after the
    other. *)
Lemma bracket_when_terminated conn msg conn' tr :
  websocket.ReadJSON conn (∅ : gmap string json.value) = (msg, None, conn') ->
  interfaceEq (msg !! "type") "message" = true ->
  (produced (ollama (length (requests tr))
     (requestFor (assertString (msg !! "content"))))).2 <> EndExhausted ->
  exists texts later,
    frames (readLoop ollama conn tr).2 =
    frames tr ++ [response_start] ++ map response_chunk texts ++ [response_end]
      ++ later.
Proof.
  intros Hread Htype Hend.
  rewrite readLoop_eq, Hread.
  destruct (frames_bracket msg tr Htype Hend) as [texts Hfr].
  destruct (readLoop_extends conn' (dispatch ollama msg tr).2) as [tr' ->].
  exists texts, (frames tr'). simpl. rewrite frames_app, Hfr.
  list_norm. reflexivity.
Qed.

(** When the request cannot be opened the frames are [response_start], the
    error chunk and [response_end]. *)
Lemma open_error_frames msg tr err :
  interfaceEq (msg !! "type") "message" = true ->
  ollama (length (requests tr)) (requestFor (assertString (msg !! "content"))) = inl err ->
  frames (dispatch ollama msg tr).2 =
  frames tr ++ [response_start; response_chunk errorText; response_end].
Proof.
  intros Htype Hpost.
  pose proof (frames_dispatch_message msg tr Htype) as Hfr. simpl in Hfr.
  rewrite Hpost in Hfr. exact Hfr.
Qed.

(** The status of a response is never looked at: only its body counts. *)
Lemma status_not_checked status status' body prompt callback tr :
  queryOllamaStreaming (always (http.mkResponse status body)) prompt callback tr =
  queryOllamaStreaming (always (http.mkResponse status' body)) prompt callback tr.
Proof. reflexivity. Qed.

Lemma interfaceEq_message (msg : gmap string json.value) :
  msg !! "type" = Some (json.Str "message") ->
  interfaceEq (msg !! "type") "message" = true.
Proof. intros ->. reflexivity. Qed.

(** *** The properties the specification claims *)

(** C2, as amended: when [http.Post] itself answers an error (connection
    refused, DNS failure), [queryOllamaStreaming] returns that error at once:
    the request was posted and nothing else happened, whatever the callback
    is, so the callback was not invoked. *)
Theorem C2_open_error_returned_at_once prompt callback tr err :
  ollama (length (requests tr)) (requestFor prompt) = inl err ->
  queryOllamaStreaming ollama prompt callback tr =
  (Some err, tr ++ [Post endpoint (requestFor prompt)]).
Proof. intros Hpost. rewrite queryOllamaStreaming_eq. simpl. rewrite Hpost. reflexivity. Qed.

(** C4: when the body runs out before any fragment with done=true, the
    backend client returns a nil error, and the frames of the prompt are
    [response_start] and the forwarded chunks: no [response_end] and no error
    chunk. *)
Theorem C4_exhausted_body_leaves_prompt_open msg tr resp fragments :
  msg !! "type" = Some (json.Str "message") ->
  ollama (length (requests tr)) (requestFor (assertString (msg !! "content"))) = inr resp ->
  delivered (json.NewDecoder (http.Body resp)) = (fragments, EndExhausted) ->
  (queryOllamaStreaming ollama (assertString (msg !! "content")) forward
     (tr ++ [WriteJSON response_start])).1 = None
  /\ frames (dispatch ollama msg tr).2 =
     frames tr ++ [response_start] ++ map response_chunk (map Response fragments).
Proof.
  intros Htype%interfaceEq_message Hpost Hdel. split.
  - rewrite query_forward_error, requests_app. simpl. rewrite app_nil_r, Hpost.
    simpl. rewrite Hdel. reflexivity.
  - pose proof (frames_dispatch_message msg tr Htype) as Hfr. simpl in Hfr.
    pose proof (delivered_wellEnded (json.NewDecoder (http.Body resp))) as Hw.
    rewrite Hpost in Hfr. simpl in Hfr. rewrite Hdel in Hfr, Hw. simpl in *.
    rewrite Hfr, (frameOf_not_final _ Hw), app_nil_r. reflexivity.
Qed.

(** C5: when the stream ends by a fragment with done=true, the frames of the
    prompt are [response_start], one chunk for each fragment before the final
    one, and [response_end]: the text of the final fragment is not
    forwarded. *)
Theorem C5_final_text_not_forwarded msg tr init final :
  msg !! "type" = Some (json.Str "message") ->
  produced (ollama (length (requests tr))
    (requestFor (assertString (msg !! "content")))) = (init ++ [final], EndDone) ->
  frames (dispatch ollama msg tr).2 =
  frames tr ++ [response_start] ++ map response_chunk (map Response init)
    ++ [response_end].
Proof.
  intros Htype%interfaceEq_message Hprod.
  pose proof (frames_dispatch_message msg tr Htype) as Hfr. simpl in Hfr.
  pose proof (produced_wellEnded
    (ollama (length (requests tr)) (requestFor (assertString (msg !! "content"))))) as Hw.
  rewrite Hprod in Hfr, Hw. simpl in *.
  destruct Hw as (init' & final' & Heq & Hfin & Hinit).
  apply app_inj_tail in Heq as [<- <-].
  rewrite Hfr, map_app, (frameOf_not_final _ Hinit). simpl.
  unfold frameOf. rewrite Hfin, app_nil_r. reflexivity.
Qed.

(** C8: when reading a message fails, as it does on a payload that does not
    decode, the read loop ends: the error is logged, no frame is written, what
    follows on the connection is never read; and the connection is closed
    when the loop has ended. *)
Theorem C8_malformed_message_ends_session conn msg conn' tr err :
  websocket.ReadJSON conn (∅ : gmap string json.value) = (msg, Some err, conn') ->
  readLoop ollama conn tr = (tt, tr ++ [Printf "WebSocket read error: %v" err])
  /\ handleWebSocket ollama (inr conn) tr
     = (tt, tr ++ [Printf "WebSocket read error: %v" err; ConnClose]).
Proof.
  intros Hread.
  assert (readLoop ollama conn tr
          = (tt, tr ++ [Printf "WebSocket read error: %v" err])) as Hloop.
  { rewrite readLoop_eq, Hread. reflexivity. }
  split; [exact Hloop|].
  unfold handleWebSocket, defer, mbind, M_bind. rewrite Hloop. simpl.
  unfold emit, mret, M_ret. rewrite <- app_assoc. reflexivity.
Qed.

(** C10: when the request was opened, the response body is closed before
    [queryOllamaStreaming] returns, whichever way the stream ended (a final
    fragment, the body running out, a decoding error): closing it is the last
    thing done, after everything the loop did. *)
Theorem C10_body_closed_on_every_path prompt callback tr resp fragments e :
  ollama (length (requests tr)) (requestFor prompt) = inr resp ->
  delivered (json.NewDecoder (http.Body resp)) = (fragments, e) ->
  queryOllamaStreaming ollama prompt callback tr =
  (errorOf e,
   deliver callback fragments (tr ++ [Post endpoint (requestFor prompt)]) ++ [BodyClose]).
Proof.
  intros Hpost Hdel. rewrite queryOllamaStreaming_eq. simpl.
  rewrite Hpost, Hdel. reflexivity.
Qed.

End Properties.

(** *** Decoding the two concatenated objects *)

Lemma More_objA rest : json.More (String.append objA rest) = true.
Proof. reflexivity. Qed.

Lemma Decode_objA rest :
  json.Decode (String.append objA rest) zeroFragment
  = (mkStreamResponse "A" false, None, rest).
Proof. vm_compute. reflexivity. Qed.

Lemma More_objB rest : json.More (String.append objB rest) = true.
Proof. reflexivity. Qed.

Lemma Decode_objB rest :
  json.Decode (String.append objB rest) zeroFragment
  = (mkStreamResponse "B" true, None, rest).
Proof. vm_compute. reflexivity. Qed.

Lemma delivered_objA_objB rest :
  delivered (json.NewDecoder (String.append objA (String.append objB rest)))
  = ([mkStreamResponse "A" false; mkStreamResponse "B" true], EndDone).
Proof.
  unfold json.NewDecoder.
  rewrite delivered_eq, More_objA, Decode_objA. simpl.
  rewrite delivered_eq, More_objB, Decode_objB. reflexivity.
Qed.

(** C6: a body that begins with the two objects
    [{"response":"A","done":false}{"response":"B","done":true}] delivers
    exactly the fragments ("A", false) and ("B", true), in that order, and
    decoding stops there: whatever follows the second object in the body, the
    callback is called on these two fragments and on nothing else, then the
    body is closed. *)
Theorem C6_two_objects_two_fragments status rest prompt callback tr :
  delivered (json.NewDecoder (String.append objA (String.append objB rest)))
    = ([mkStreamResponse "A" false; mkStreamResponse "B" true], EndDone)
  /\ queryOllamaStreaming
       (always (http.mkResponse status (String.append objA (String.append objB rest))))
       prompt callback tr
     = (None,
        (callback "B" true
           (emit (Sleep 50)
              (callback "A" false
                 (tr ++ [Post endpoint (requestFor prompt)])).2).2).2
        ++ [BodyClose]).
Proof.
  split; [apply delivered_objA_objB|].
  rewrite queryOllamaStreaming_eq. unfold always. simpl http.Body.
  cbv zeta. rewrite delivered_objA_objB. reflexivity.
Qed.

(** *** Runs on the scenarios *)

(** C1, at the input where the code departs from it: the backend answers one
    fragment that is not final and the body ends.  The client is sent
    [response_start] and the chunk, and no [response_end] ever. *)
Theorem C1_no_response_end_when_body_runs_out :
  handleWebSocket (always (http.mkResponse 200 cutShortBody)) (inr [promptHi]) []
  = (tt,
     [WriteJSON response_start; Post endpoint (requestFor "hi");
      WriteJSON (response_chunk "Hi"); Sleep 50; BodyClose;
      Printf "WebSocket read error: %v" (CloseError "close 1006 (abnormal closure)");
      ConnClose]).
Proof. vm_compute. reflexivity. Qed.

(** C2 as stated fails on a non-success status: Ollama answers 404 with an
    error object when the model is missing; [http.Post] hands the response
    over with a nil error, the body is decoded, the callback is invoked on the
    fragment it decodes to, and no error is returned. *)
Lemma C2_status_404_is_not_an_error :
  http.StatusCode notFound = 404%N
  /\ queryOllamaStreaming (always notFound) "hi" forward []
     = (None,
        [Post endpoint (requestFor "hi"); WriteJSON (response_chunk EmptyString);
         Sleep 50; BodyClose]).
Proof. split; vm_compute; reflexivity. Qed.

Lemma C2_witness :
  queryOllamaStreaming refused "hi" forward []
  = (Some (UrlError "dial tcp 127.0.0.1:11434: connect: connection refused"),
     [Post endpoint (requestFor "hi")]).
Proof.
  apply (C2_open_error_returned_at_once refused "hi" forward []).
  reflexivity.
Defined.

Lemma C4_witness :
  (queryOllamaStreaming (always (http.mkResponse 200 cutShortBody)) "hi" forward
     [WriteJSON response_start]).1 = None
  /\ frames (dispatch (always (http.mkResponse 200 cutShortBody)) msgHi []).2
     = [response_start; response_chunk "Hi"].
Proof.
  apply (C4_exhausted_body_leaves_prompt_open
           (always (http.mkResponse 200 cutShortBody)) msgHi []
           (http.mkResponse 200 cutShortBody) [mkStreamResponse "Hi" false]);
    vm_compute; reflexivity.
Defined.

Lemma C5_witness :
  frames (dispatch (always (http.mkResponse 200 helloBody)) msgHi []).2
  = [response_start; response_chunk "Hel"; response_chunk "lo"; response_end].
Proof.
  apply (C5_final_text_not_forwarded (always (http.mkResponse 200 helloBody)) msgHi []
           [mkStreamResponse "Hel" false; mkStreamResponse "lo" false]
           (mkStreamResponse EmptyString true));
    vm_compute; reflexivity.
Defined.

Lemma C8_witness :
  readLoop refused [malformed; promptHi] []
    = (tt, [Printf "WebSocket read error: %v" ErrUnexpectedEOF])
  /\ handleWebSocket refused (inr [malformed; promptHi]) []
    = (tt, [Printf "WebSocket read error: %v" ErrUnexpectedEOF; ConnClose]).
Proof.
  apply (C8_malformed_message_ends_session refused [malformed; promptHi] ∅ [promptHi] []
           ErrUnexpectedEOF).
  vm_compute. reflexivity.
Defined.

Lemma C10_witness :
  queryOllamaStreaming (always (http.mkResponse 200 brokenBody)) "hi" forward []
  = (Some ErrUnexpectedEOF,
     [Post endpoint (requestFor "hi"); WriteJSON (response_chunk "Hi"); Sleep 50;
      BodyClose]).
Proof.
  apply (C10_body_closed_on_every_path (always (http.mkResponse 200 brokenBody))
           "hi" forward [] (http.mkResponse 200 brokenBody)
           [mkStreamResponse "Hi" false] (EndError ErrUnexpectedEOF));
    vm_compute; reflexivity.
Defined.

(** *** Further runs *)

(** Every way of not being a "message": another type, no type, a type that is
    not a string, a type in another case, [null].  Nothing is written until
    the peer closes. *)
Example ignored_messages :
  handleWebSocket refused
    (inr [js "{'type':'ping'}"; js "{'content':'hi'}"; js "{'type':7,'content':'hi'}";
          js "{'type':'Message'}"; js "{'type':null}"; js "null"]) []
  = (tt, [Printf "WebSocket read error: %v" (CloseError "close 1006 (abnormal closure)");
          ConnClose]).
Proof. vm_compute. reflexivity. Qed.

(** The text of a final fragment is dropped even when there is some. *)
Example final_text_dropped :
  frames (handleWebSocket (always (http.mkResponse 200 byeBody)) (inr [promptHi]) []).2
  = [response_start; response_chunk "Good"; response_end].
Proof. vm_compute. reflexivity. Qed.

(** A content that is not a string, then no content: two empty prompts. *)
Example empty_prompts :
  requests (handleWebSocket refused (inr [numberContent; noContent]) []).2
  = [requestFor EmptyString; requestFor EmptyString].
Proof. vm_compute. reflexivity. Qed.

(** Two prompts in a row against a backend that answers the first and fails
    to decode on the second: the frames of the two do not mix, and the
    session lives on until the message that does not decode. *)
Example two_prompts_then_garbage :
  frames
    (handleWebSocket
       (fun n _ => inr (http.mkResponse 200 (if decide (n = 0) then helloBody else brokenBody)))
       (inr [promptHi; ping; promptHi; malformed; promptHi]) []).2
  = [response_start; response_chunk "Hel"; response_chunk "lo"; response_end;
     response_start; response_chunk "Hi"; response_chunk errorText; response_end].
Proof. vm_compute. reflexivity. Qed.

(** The body is closed on each of the three ways out of the loop. *)
Example body_closed_three_ways :
  map (fun body =>
         last (queryOllamaStreaming (always (http.mkResponse 200 body))
                 "hi" forward []).2)
      [helloBody; cutShortBody; brokenBody]
  = [Some BodyClose; Some BodyClose; Some BodyClose].
Proof. vm_compute. reflexivity. Qed.

(** A failed handshake: one log line, no connection to serve or close. *)
Example upgrade_failure :
  handleWebSocket refused (inl (HandshakeError "not a websocket handshake")) []
  = (tt, [Printf "WebSocket upgrade error: %v"
            (HandshakeError "not a websocket handshake")]).
Proof. reflexivity. Qed.

(** ** The session as a whole

    Views of a run that the properties below are stated with. *)

(** The prompts of a connection: the contents of the messages of type
    "message" that are read before reading fails for the first time. *)
Fixpoint prompts (conn : websocket.Conn) : list string :=
  match conn with
  | [] => []
  | payload :: conn' =>
      match websocket.ReadJSON (payload :: conn') (∅ : gmap string json.value) with
      | (msg, None, _) =>
          (if interfaceEq (msg !! "type") "message"
           then [assertString (msg !! "content")] else [])
            ++ prompts conn'
      | _ => []
      end
  end.

(** The POSTs of a run, each with the URL it went to. *)
Definition posted (tr : Trace) : list (string * OllamaRequest) :=
  omap (fun e => match e with Post url req => Some (url, req) | _ => None end) tr.

(** The client's side of the protocol: a response is open from a
    [response_start] to the next [response_end]; a chunk or an end is only
    expected while a response is open.  [Some open] when the frames were all
    expected, with whether a response is open after them. *)
Definition frameStep (open : bool) (f : OutboundFrame) : option bool :=
  match f with
  | response_start => Some true
  | response_chunk _ => if open then Some true else None
  | response_end => if open then Some false else None
  end.

Fixpoint frameRun (open : bool) (fs : list OutboundFrame) : option bool :=
  match fs with
  | [] => Some open
  | f :: fs' =>
      match frameStep open f with
      | Some open' => frameRun open' fs'
      | None => None
      end
  end.

(** The discipline of response bodies against a backend: a POST that is
    answered opens a body, [BodyClose] closes the open one; a POST is only
    expected while no body is open and a close only while one is.  The state
    is the number of POSTs so far and whether a body is open. *)
Definition bodyStep (ollama : nat -> OllamaRequest -> error + http.Response)
    (st : nat * bool) (e : Event) : option (nat * bool) :=
  let (n, open) := st in
  match e with
  | Post _ req =>
      if open then None
      else Some (S n, match ollama n req with inr _ => true | inl _ => false end)
  | BodyClose => if open then Some (n, false) else None
  | _ => Some st
  end.

Fixpoint bodyRun (ollama : nat -> OllamaRequest -> error + http.Response)
    (st : nat * bool) (tr : Trace) : option (nat * bool) :=
  match tr with
  | [] => Some st
  | e :: tr' =>
      match bodyStep ollama st e with
      | Some st' => bodyRun ollama st' tr'
      | None => None
      end
  end.

(** The time slept in a run, in milliseconds. *)
Definition slept (tr : Trace) : N :=
  foldr (fun e total => match e with Sleep ms => (ms + total)%N | _ => total end) 0%N tr.

(** The fragments of a sequence that are not final. *)
Definition notFinal (fragments : list OllamaStreamResponse) : list OllamaStreamResponse :=
  List.filter (fun fragment => negb (Done fragment)) fragments.

(** White space only. *)
Fixpoint allSpace (s : string) : bool :=
  match s with
  | EmptyString => true
  | String c s' => json.isSpace c && allSpace s'
  end.

Section Session.

Context (ollama : nat -> OllamaRequest -> error + http.Response).

(** *** Induction along the read loop *)

Lemma ReadJSON_rest {T} `{json.Unmarshaler T} payload conn (v v' : T) err conn' :
  websocket.ReadJSON (payload :: conn) v = (v', err, conn') -> conn' = conn.
Proof.
  unfold websocket.ReadJSON. simpl.
  destruct (json.Decode _ v) as [[? ?] ?]. intros [= _ _ <-]. reflexivity.
Qed.

Lemma prompts_read conn msg conn' :
  websocket.ReadJSON conn (∅ : gmap string json.value) = (msg, None, conn') ->
  prompts conn =
  (if interfaceEq (msg !! "type") "message"
   then [assertString (msg !! "content")] else []) ++ prompts conn'.
Proof.
  destruct conn as [|payload conn]; [discriminate|].
  intros Hread. pose proof (ReadJSON_rest _ _ _ _ _ _ Hread) as ->.
  simpl prompts. rewrite Hread. reflexivity.
Qed.

Lemma prompts_fail conn msg err conn' :
  websocket.ReadJSON conn (∅ : gmap string json.value) = (msg, Some err, conn') ->
  prompts conn = [].
Proof.
  destruct conn as [|payload conn]; [reflexivity|].
  intros Hread. simpl prompts. rewrite Hread. reflexivity.
Qed.

(** To prove [P conn tr final] of the trace [final] the loop leaves when run
    on [conn] from [tr]: prove it where reading fails, and carry it back over
    one message that was read and dispatched. *)
Lemma readLoop_run (P : websocket.Conn -> Trace -> Trace -> Prop) :
  (forall conn tr msg err conn',
     websocket.ReadJSON conn (∅ : gmap string json.value) = (msg, Some err, conn') ->
     P conn tr (tr ++ [Printf "WebSocket read error: %v" err])) ->
  (forall conn tr msg conn' final,
     websocket.ReadJSON conn (∅ : gmap string json.value) = (msg, None, conn') ->
     P conn' (dispatch ollama msg tr).2 final ->
     P conn tr final) ->
  forall conn tr, P conn tr (readLoop ollama conn tr).2.
Proof.
  intros Hfail Hstep conn.
  remember (length conn) as n eqn:Hn. revert conn Hn.
  induction n as [n IH] using lt_wf_ind. intros conn -> tr.
  rewrite readLoop_eq.
  destruct (websocket.ReadJSON conn _) as [[msg [err|]] conn'] eqn:Hread.
  - exact (Hfail _ _ _ _ _ Hread).
  - eapply Hstep; [exact Hread|].
    eapply IH; [exact (ReadJSON_shorter _ _ _ _ Hread)|reflexivity].
Qed.

Lemma handleWebSocket_conn conn tr :
  handleWebSocket ollama (inr conn) tr = (tt, (readLoop ollama conn tr).2 ++ [ConnClose]).
Proof.
  unfold handleWebSocket, defer, mbind, M_bind.
  destruct (readLoop ollama conn tr) as [[] tr']. reflexivity.
Qed.

(** What one dispatch adds to the trace. *)
Definition added (msg : gmap string json.value) (tr : Trace) : Trace :=
  if interfaceEq (msg !! "type") "message" then
    let prompt := assertString (msg !! "content") in
    [WriteJSON response_start; Post endpoint (requestFor prompt)]
      ++ answered (ollama (length (requests tr)) (requestFor prompt))
  else [].

Lemma dispatch_added msg tr : (dispatch ollama msg tr).2 = tr ++ added msg tr.
Proof.
  unfold added. destruct (interfaceEq (msg !! "type") "message") eqn:Htype.
  - rewrite (dispatch_message _ _ _ Htype). reflexivity.
  - rewrite (dispatch_other _ _ _ Htype). simpl. by rewrite app_nil_r.
Qed.

(** *** One request per prompt *)

Lemma posted_app tr1 tr2 : posted (tr1 ++ tr2) = posted tr1 ++ posted tr2.
Proof. apply omap_app. Qed.

Lemma posted_forwarding fragments : posted (forwarding fragments) = [].
Proof.
  induction fragments as [|fragment fragments IH]; [reflexivity|].
  unfold forwarding. simpl. fold (forwarding fragments).
  destruct (Done fragment); simpl; unfold posted in *; simpl; exact IH.
Qed.

Lemma posted_epilogue e : posted (epilogue e) = [].
Proof. destruct e; reflexivity. Qed.

Lemma posted_answered r : posted (answered r) = [].
Proof.
  destruct r as [err|resp]; simpl; [reflexivity|].
  rewrite posted_app, posted_forwarding. simpl.
  change (posted (BodyClose :: ?l)) with (posted l). apply posted_epilogue.
Qed.

Lemma posted_added msg tr :
  posted (added msg tr) =
  if interfaceEq (msg !! "type") "message"
  then [(endpoint, requestFor (assertString (msg !! "content")))] else [].
Proof.
  unfold added. destruct (interfaceEq _ _); [|reflexivity].
  rewrite posted_app, posted_answered. reflexivity.
Qed.

(** X1: over a whole session the requests posted to the backend are, in the
    order the messages were received, one POST per message of type "message"
    read before the first read failure, each sent to the fixed endpoint for
    the model "llama2" with streaming on and the message's content as prompt.
    What the backend answers changes nothing to that. *)
Theorem X1_one_request_per_prompt conn tr :
  posted (handleWebSocket ollama (inr conn) tr).2 =
  posted tr ++ map (fun prompt => (endpoint, requestFor prompt)) (prompts conn).
Proof.
  rewrite handleWebSocket_conn. simpl. rewrite posted_app. simpl. rewrite app_nil_r.
  revert conn tr.
  apply (readLoop_run
    (fun conn tr final =>
       posted final =
       posted tr ++ map (fun prompt => (endpoint, requestFor prompt)) (prompts conn))).
  - intros conn tr msg err conn' Hread.
    rewrite (prompts_fail _ _ _ _ Hread), posted_app. reflexivity.
  - intros conn tr msg conn' final Hread IH.
    rewrite IH, dispatch_added, posted_app, posted_added, (prompts_read _ _ _ Hread).
    rewrite map_app, <- app_assoc. f_equal. f_equal.
    destruct (interfaceEq _ _); reflexivity.
Qed.

(** *** The frames a client sees *)

Lemma frameRun_app fs1 fs2 open :
  frameRun open (fs1 ++ fs2) =
  match frameRun open fs1 with
  | Some open' => frameRun open' fs2
  | None => None
  end.
Proof.
  revert open. induction fs1 as [|f fs1 IH]; intros open; simpl; [reflexivity|].
  destruct (frameStep open f); [apply IH|reflexivity].
Qed.

Lemma frameRun_chunks fragments :
  Forall (fun fragment => Done fragment = false) fragments ->
  frameRun true (map frameOf fragments) = Some true.
Proof.
  induction 1 as [|fragment fragments Hd _ IH]; [reflexivity|].
  simpl. unfold frameOf at 1. rewrite Hd. simpl. exact IH.
Qed.

Lemma frameRun_answer fragments e :
  wellEnded fragments e ->
  exists open, frameRun true (map frameOf fragments ++ frames (epilogue e)) = Some open.
Proof.
  intros Hw. rewrite frameRun_app.
  destruct e as [| |err]; simpl in Hw.
  - destruct Hw as (init & final & -> & Hfin & Hinit).
    rewrite map_app, frameRun_app, (frameRun_chunks _ Hinit). simpl.
    unfold frameOf. rewrite Hfin. simpl. eauto.
  - rewrite (frameRun_chunks _ Hw). simpl. eauto.
  - rewrite (frameRun_chunks _ Hw). simpl. eauto.
Qed.

Lemma frames_added msg tr :
  frames (added msg tr) =
  if interfaceEq (msg !! "type") "message" then
    let r := ollama (length (requests tr)) (requestFor (assertString (msg !! "content"))) in
    [response_start] ++ map frameOf (produced r).1 ++ frames (epilogue (produced r).2)
  else [].
Proof.
  destruct (interfaceEq (msg !! "type") "message") eqn:Htype.
  - pose proof (frames_dispatch_message ollama msg tr Htype) as Hfr.
    rewrite dispatch_added, frames_app in Hfr. simpl in Hfr.
    apply app_inv_head in Hfr. exact Hfr.
  - unfold added. rewrite Htype. reflexivity.
Qed.

Lemma frameRun_added msg tr open :
  exists open', frameRun open (frames (added msg tr)) = Some open'.
Proof.
  rewrite frames_added. destruct (interfaceEq _ _); [|simpl; eauto].
  simpl. apply frameRun_answer, produced_wellEnded.
Qed.

(** X2: whatever the client sends and whatever the backend answers, the
    frames of a session follow the protocol a client expects: a
    [response_chunk] or a [response_end] is only ever written after a
    [response_start] that no [response_end] has closed yet.  In particular no
    frame precedes the first [response_start] and no two [response_end]
    follow each other without a [response_start] between them. *)
Theorem X2_frames_only_inside_a_response conn tr open :
  frameRun false (frames tr) = Some open ->
  exists open',
    frameRun false (frames (handleWebSocket ollama (inr conn) tr).2) = Some open'.
Proof.
  rewrite handleWebSocket_conn. simpl. rewrite frames_app. simpl. rewrite app_nil_r.
  revert conn tr open.
  apply (readLoop_run
    (fun conn tr final =>
       forall open, frameRun false (frames tr) = Some open ->
       exists open', frameRun false (frames final) = Some open')).
  - intros conn tr msg err conn' _ open Hrun.
    rewrite frames_app. simpl. rewrite app_nil_r. eauto.
  - intros conn tr msg conn' final _ IH open Hrun.
    destruct (frameRun_added msg tr open) as [open' Hadd].
    apply (IH open').
    rewrite dispatch_added, frames_app, frameRun_app, Hrun. exact Hadd.
Qed.

(** *** Response bodies *)

Lemma bodyRun_app tr1 tr2 st :
  bodyRun ollama st (tr1 ++ tr2) =
  match bodyRun ollama st tr1 with
  | Some st' => bodyRun ollama st' tr2
  | None => None
  end.
Proof.
  revert st. induction tr1 as [|e tr1 IH]; intros st; simpl; [reflexivity|].
  destruct (bodyStep ollama st e); [apply IH|reflexivity].
Qed.

Lemma bodyRun_count tr : forall k open n open',
  bodyRun ollama (k, open) tr = Some (n, open') -> n = k + length (requests tr).
Proof.
  induction tr as [|e tr IH]; intros k open n open'; simpl.
  - intros [= <- _]. lia.
  - destruct e; simpl; try (intros H; apply IH in H; exact H).
    + destruct open; [discriminate|]. intros H. apply IH in H.
      unfold requests in *. simpl. lia.
    + destruct open; [|discriminate]. intros H. apply IH in H. exact H.
Qed.

Lemma bodyRun_forwarding fragments st :
  bodyRun ollama st (forwarding fragments) = Some st.
Proof.
  induction fragments as [|fragment fragments IH]; [reflexivity|].
  unfold forwarding. simpl. fold (forwarding fragments).
  destruct st as [n open]. destruct (Done fragment); simpl; exact IH.
Qed.

Lemma bodyRun_epilogue e st : bodyRun ollama st (epilogue e) = Some st.
Proof. destruct st as [n open]. destruct e; reflexivity. Qed.

Lemma bodyRun_added msg tr :
  exists n,
    bodyRun ollama (length (requests tr), false) (added msg tr) = Some (n, false).
Proof.
  unfold added. destruct (interfaceEq _ _); [|simpl; eauto].
  simpl. destruct (ollama _ _) as [err|resp] eqn:Hpost; simpl.
  - eauto.
  - rewrite bodyRun_app, bodyRun_forwarding. simpl.
    rewrite bodyRun_epilogue. eauto.
Qed.

(** X3: over a whole session the response bodies are handled one at a time
    and none is left open: a request is only posted while no body is open,
    every body a POST obtained is closed before the next POST and before the
    session ends, and nothing is closed that was not open. *)
Theorem X3_bodies_closed_one_at_a_time conn tr n :
  bodyRun ollama (0, false) tr = Some (n, false) ->
  exists n',
    bodyRun ollama (0, false) (handleWebSocket ollama (inr conn) tr).2 = Some (n', false).
Proof.
  rewrite handleWebSocket_conn. simpl.
  assert (forall final,
            (exists n', bodyRun ollama (0, false) final = Some (n', false)) ->
            exists n', bodyRun ollama (0, false) (final ++ [ConnClose]) = Some (n', false))
    as Hclose.
  { intros final [n' Hrun]. rewrite bodyRun_app, Hrun. simpl. eauto. }
  intros Hrun. apply Hclose. revert conn tr n Hrun.
  apply (readLoop_run
    (fun conn tr final =>
       forall n, bodyRun ollama (0, false) tr = Some (n, false) ->
       exists n', bodyRun ollama (0, false) final = Some (n', false))).
  - intros conn tr msg err conn' _ n Hrun.
    rewrite bodyRun_app, Hrun. simpl. eauto.
  - intros conn tr msg conn' final _ IH n Hrun.
    destruct (bodyRun_added msg tr) as [n' Hadd].
    apply (IH n').
    rewrite dispatch_added, bodyRun_app, Hrun.
    rewrite (bodyRun_count _ _ _ _ _ Hrun). exact Hadd.
Qed.

(** *** How a session ends *)

Lemma no_close_forwarding fragments : ConnClose ∉ forwarding fragments.
Proof.
  induction fragments as [|fragment fragments IH]; [apply not_elem_of_nil|].
  unfold forwarding. simpl. fold (forwarding fragments).
  destruct (Done fragment); simpl; rewrite ?not_elem_of_cons; auto.
Qed.

Lemma no_close_added msg tr : ConnClose ∉ added msg tr.
Proof.
  unfold added. destruct (interfaceEq _ _); [|apply not_elem_of_nil].
  simpl. rewrite !not_elem_of_cons. split; [discriminate|]. split; [discriminate|].
  destruct (ollama _ _) as [err|resp]; simpl.
  - rewrite !not_elem_of_cons. repeat split; try discriminate. apply not_elem_of_nil.
  - destruct (delivered _) as [fragments e]. simpl.
    rewrite not_elem_of_app. split; [apply no_close_forwarding|].
    rewrite not_elem_of_cons. split; [discriminate|].
    destruct e; simpl; rewrite ?not_elem_of_cons;
      repeat split; try discriminate; apply not_elem_of_nil.
Qed.

(** X4: a session on an upgraded connection always ends the same way: the
    read loop is only left through a failed read, which is logged, and the
    connection is then closed, once, as the last thing the handler does;
    nothing before closes it. *)
Theorem X4_session_ends_logged_and_closed conn tr :
  exists during err,
    (handleWebSocket ollama (inr conn) tr).2 =
    tr ++ during ++ [Printf "WebSocket read error: %v" err; ConnClose]
    /\ ConnClose ∉ during.
Proof.
  rewrite handleWebSocket_conn. simpl.
  assert (exists during err,
            (readLoop ollama conn tr).2 =
            tr ++ during ++ [Printf "WebSocket read error: %v" err]
            /\ ConnClose ∉ during) as (during & err & -> & Hno).
  { revert conn tr.
    apply (readLoop_run
      (fun conn tr final =>
         exists during err,
           final = tr ++ during ++ [Printf "WebSocket read error: %v" err]
           /\ ConnClose ∉ during)).
    - intros conn tr msg err conn' _. exists [], err. split; [reflexivity|].
      apply not_elem_of_nil.
    - intros conn tr msg conn' final _ (during & err & -> & Hno).
      exists (added msg tr ++ during), err. split.
      + rewrite dispatch_added, <- !app_assoc. reflexivity.
      + rewrite not_elem_of_app. split; [apply no_close_added|exact Hno]. }
  exists during, err. split; [|exact Hno].
  rewrite <- !app_assoc. reflexivity.
Qed.

(** *** Pacing *)

Lemma slept_app tr1 tr2 : slept (tr1 ++ tr2) = (slept tr1 + slept tr2)%N.
Proof.
  induction tr1 as [|e tr1 IH]; simpl; [reflexivity|].
  destruct e; simpl; rewrite ?IH; lia.
Qed.

Lemma slept_forwarding fragments :
  slept (forwarding fragments) = (50 * N.of_nat (length (notFinal fragments)))%N.
Proof.
  induction fragments as [|fragment fragments IH]; [reflexivity|].
  unfold forwarding, notFinal. simpl.
  fold (forwarding fragments). fold (notFinal fragments).
  destruct (Done fragment); simpl; rewrite IH; simpl; lia.
Qed.

Lemma slept_epilogue e : slept (epilogue e) = 0%N.
Proof. destruct e; reflexivity. Qed.

End Session.

(** *** What the decoder looks at

    A value that [readValue] hands over did not depend on what follows it in
    the input, unless it is a number that the end of the input cut off. *)

Lemma endOfValue_inner v f ps w b : json.endOfValue v (f :: ps) <> json.scanEnd w b.
Proof.
  unfold json.endOfValue, json.goto, json.serror.
  repeat case_match; discriminate.
Qed.

Lemma endValue_space ps w b : json.endValue ps " " <> json.scanEnd w b.
Proof.
  unfold json.endValue, json.serror, json.goto. destruct ps; simpl; discriminate.
Qed.

Lemma stepByte_space_end s v b :
  json.stepByte s " " = json.scanEnd v b -> exists l, v = json.Number l.
Proof.
  destruct s as [st ps l]. unfold json.stepByte. simpl.
  destruct st; simpl;
    unfold json.beginValue, json.beginString, json.expect, json.stepNum0, json.stepESign,
      json.endNumber, json.goto, json.serror; simpl;
    try discriminate;
    try (intros H; exfalso; apply (endValue_space _ _ _ H)).
  all: destruct ps as [|f ps]; [intros [= <- _]; eauto|];
       destruct (json.endOfValue _ (f :: ps)) eqn:E; try discriminate;
       [intros H; exfalso; apply (endValue_space _ _ _ H)
       |exfalso; apply (endOfValue_inner _ _ _ _ _ E)].
Qed.

Lemma readValueFrom_app d x : forall s v rest,
  json.readValueFrom s d = inr (v, rest) ->
  (forall l, v <> json.Number l) ->
  json.readValueFrom s (String.append d x) = inr (v, String.append rest x).
Proof.
  induction d as [|c d IH]; intros s v rest; simpl.
  - destruct (json.stepByte s " ") as [?|w b|?] eqn:E.
    + destruct (json.step s), (json.parseState s); discriminate.
    + intros [= <- <-] Hv. destruct (stepByte_space_end _ _ _ E) as [l ->].
      destruct (Hv l eq_refl).
    + destruct (json.step s), (json.parseState s); discriminate.
  - destruct (json.stepByte s c) as [s'|w [|]|e].
    + apply IH.
    + intros [= <- <-] _. reflexivity.
    + intros [= <- <-] _. reflexivity.
    + discriminate.
Qed.

Lemma Decode_app d x fragment rest :
  json.Decode d zeroFragment = (fragment, None, rest) ->
  json.Decode (String.append d x) zeroFragment = (fragment, None, String.append rest x).
Proof.
  unfold json.Decode, json.readValue.
  destruct (json.readValueFrom json.reset d) as [e|[v rest0]] eqn:E; [discriminate|].
  intros H.
  rewrite (readValueFrom_app _ x _ _ _ E).
  - injection H as H1 H2. rewrite H1, H2. reflexivity.
  - intros l ->. simpl in H. discriminate.
Qed.

Lemma More_app d x : json.More d = true -> json.More (String.append d x) = true.
Proof.
  unfold json.More.
  assert (forall c, json.peek d = Some c -> json.peek (String.append d x) = Some c) as Hpeek.
  { induction d as [|c0 d IH]; intros c; simpl; [discriminate|].
    destruct (json.isSpace c0); [apply IH|trivial]. }
  destruct (json.peek d) as [c|]; [|discriminate].
  rewrite (Hpeek c eq_refl). trivial.
Qed.

Lemma delivered_app_done x d : forall fragments,
  delivered d = (fragments, EndDone) ->
  delivered (String.append d x) = (fragments, EndDone).
Proof.
  induction d as [d IH] using decoder_ind. intros fragments.
  rewrite (delivered_eq d), (delivered_eq (String.append d x)).
  destruct (json.More d) eqn:Hmore; [|discriminate].
  rewrite (More_app _ x Hmore).
  destruct (json.Decode d zeroFragment) as [[fragment [err|]] d'] eqn:Hdec; [discriminate|].
  rewrite (Decode_app _ x _ _ Hdec).
  destruct (Done fragment) eqn:Hdone; [trivial|].
  destruct (delivered d') as [rest e] eqn:Hrest.
  intros [= <- ->].
  rewrite (IH _ _ eq_refl eq_refl Hdone rest Hrest). reflexivity.
Qed.

(** X6: once a fragment with done=true has been delivered the rest of the
    body is never looked at: whatever bytes follow in the body, well formed or
    not, the backend client makes the same calls to the callback and returns
    the same nil error. *)
Theorem X6_nothing_read_after_done status body extra prompt callback tr :
  (delivered (json.NewDecoder body)).2 = EndDone ->
  queryOllamaStreaming (always (http.mkResponse status (String.append body extra)))
    prompt callback tr
  = queryOllamaStreaming (always (http.mkResponse status body)) prompt callback tr.
Proof.
  intros Hdone. rewrite !queryOllamaStreaming_eq. unfold always, json.NewDecoder in *.
  simpl http.Body. cbv zeta.
  destruct (delivered body) as [fragments e] eqn:Hdel. simpl in Hdone. subst e.
  rewrite (delivered_app_done extra _ _ Hdel). reflexivity.
Qed.

(** *** White space between the objects of a body *)

Lemma More_space ws d : allSpace ws = true -> json.More (String.append ws d) = json.More d.
Proof.
  unfold json.More. intros Hws.
  assert (json.peek (String.append ws d) = json.peek d) as ->; [|reflexivity].
  induction ws as [|c ws IH]; simpl in *; [reflexivity|].
  apply andb_true_iff in Hws as [Hc Hws]. rewrite Hc. apply IH, Hws.
Qed.

Lemma readValue_space ws d :
  allSpace ws = true -> json.readValue (String.append ws d) = json.readValue d.
Proof.
  unfold json.readValue. intros Hws.
  induction ws as [|c ws IH]; simpl in *; [reflexivity|].
  apply andb_true_iff in Hws as [Hc Hws].
  change (json.stepByte json.reset c) with (json.beginValue [] c).
  unfold json.beginValue. rewrite Hc. simpl. apply IH, Hws.
Qed.

Lemma delivered_space ws d :
  allSpace ws = true -> delivered (String.append ws d) = delivered d.
Proof.
  intros Hws. rewrite (delivered_eq d), (delivered_eq (String.append ws d)).
  rewrite (More_space _ _ Hws). destruct (json.More d); [|reflexivity].
  unfold json.Decode. rewrite (readValue_space _ _ Hws).
  destruct (json.readValue d) as [e|[v rest]]; reflexivity.
Qed.


(** *** Runs of the session properties *)

Lemma X2_witness :
  exists open',
    frameRun false
      (frames (handleWebSocket (always (http.mkResponse 200 helloBody))
                 (inr [promptHi; ping; promptHi]) []).2)
    = Some open'.
Proof.
  apply (X2_frames_only_inside_a_response (always (http.mkResponse 200 helloBody))
           [promptHi; ping; promptHi] [] false).
  reflexivity.
Defined.

Lemma X3_witness :
  exists n',
    bodyRun (always (http.mkResponse 200 cutShortBody)) (0, false)
      (handleWebSocket (always (http.mkResponse 200 cutShortBody))
         (inr [promptHi; promptHi]) []).2
    = Some (n', false).
Proof.
  apply (X3_bodies_closed_one_at_a_time (always (http.mkResponse 200 cutShortBody))
           [promptHi; promptHi] [] 0).
  reflexivity.
Defined.

Lemma X6_witness :
  queryOllamaStreaming
    (always (http.mkResponse 200 (String.append helloBody (js "{'response':'more"))))
    "hi" forward []
  = queryOllamaStreaming (always (http.mkResponse 200 helloBody)) "hi" forward [].
Proof.
  apply (X6_nothing_read_after_done 200 helloBody (js "{'response':'more") "hi" forward []).
  vm_compute. reflexivity.
Defined.


(** *** Objects that carry neither field *)

(** No key of the object selects a field of [OllamaStreamResponse]. *)
Definition noField (pairs : list (string * json.value)) : bool :=
  forallb (fun kv => negb (json.keyMatches kv.1 "response")
                     && negb (json.keyMatches kv.1 "done")) pairs.

Lemma storeField_noField pairs : forall acc,
  noField pairs = true -> foldl storeField acc pairs = acc.
Proof.
  induction pairs as [|[key v] pairs IH]; intros acc Hno; [reflexivity|].
  simpl in Hno. apply andb_true_iff in Hno as [Hkv Hno].
  apply andb_true_iff in Hkv as [Hr Hd].
  apply negb_true_iff in Hr, Hd. simpl in Hr, Hd.
  simpl. destruct acc as [t saved]. simpl. rewrite Hr, Hd. apply IH, Hno.
Qed.

Lemma readValue_More body v rest :
  json.readValue body = inr (v, rest) -> json.More body = true.
Proof.
  unfold json.readValue, json.More.
  induction body as [|c body IH]; simpl; [discriminate|].
  change (json.stepByte json.reset c) with (json.beginValue [] c).
  unfold json.beginValue.
  destruct (json.isSpace c) eqn:Hc; simpl; [exact IH|].
  intros H.
  destruct (c =? "]")%char eqn:E1.
  { apply Ascii.eqb_eq in E1. subst c. discriminate. }
  destruct (c =? "}")%char eqn:E2.
  { apply Ascii.eqb_eq in E2. subst c. discriminate. }
  reflexivity.
Qed.



(** *** As many responses begun as prompts *)

Definition starts (fs : list OutboundFrame) : nat :=
  length (List.filter (fun f => match f with response_start => true | _ => false end) fs).

Section Starts.

Context (ollama : nat -> OllamaRequest -> error + http.Response).

Lemma starts_app fs1 fs2 : starts (fs1 ++ fs2) = starts fs1 + starts fs2.
Proof. unfold starts. rewrite List.filter_app, length_app. reflexivity. Qed.

Lemma starts_frameOf fragments : starts (map frameOf fragments) = 0.
Proof.
  induction fragments as [|fragment fragments IH]; [reflexivity|].
  simpl. unfold frameOf at 1. destruct (Done fragment); exact IH.
Qed.

Lemma starts_added msg tr :
  starts (frames (added ollama msg tr)) =
  if interfaceEq (msg !! "type") "message" then 1 else 0.
Proof.
  rewrite frames_added. destruct (interfaceEq _ _); [|reflexivity].
  cbv zeta. rewrite !starts_app, starts_frameOf.
  destruct (produced _).2; reflexivity.
Qed.

(** X9: a session writes exactly one [response_start] for each prompt it
    reads, whatever the backend does: as many responses are begun on the
    client as messages of type "message" were received before the first read
    failure. *)
Theorem X9_one_start_per_prompt conn tr :
  starts (frames (handleWebSocket ollama (inr conn) tr).2)
  = starts (frames tr) + length (prompts conn).
Proof.
  rewrite handleWebSocket_conn. simpl. rewrite frames_app, starts_app. simpl.
  rewrite Nat.add_0_r. revert conn tr.
  apply (readLoop_run ollama
    (fun conn tr final => starts (frames final) = starts (frames tr) + length (prompts conn))).
  - intros conn tr msg err conn' Hread.
    rewrite (prompts_fail _ _ _ _ Hread), frames_app, starts_app.
    reflexivity.
  - intros conn tr msg conn' final Hread IH.
    rewrite IH, dispatch_added, frames_app, starts_app, starts_added,
      (prompts_read _ _ _ Hread), length_app.
    destruct (interfaceEq _ _); simpl; lia.
Qed.

End Starts.

(** ** What a session does with the rest of a connection *)

(** A type that is not "message", in a frame that holds a number too large
    for a float64. *)
Definition bigPing : string := js "{'type':'ping','x':1e999}".

(** Type "message", with such a number for content. *)
Definition bigContent : string := js "{'type':'message','content':1e999}".

Definition helloBackend : nat -> OllamaRequest -> error + http.Response :=
  always (http.mkResponse 200 helloBody).

Definition brokenBackend : nat -> OllamaRequest -> error + http.Response :=
  always (http.mkResponse 200 brokenBody).

(** The events of the callback of the session on a fragment, with the pause
    of the loop after it. *)
Definition paced (fragment : OllamaStreamResponse) : Trace :=
  if Done fragment then [WriteJSON response_end]
  else [WriteJSON (response_chunk (Response fragment)); Sleep 50].

Section Continuation.

Context (ollama : nat -> OllamaRequest -> error + http.Response).

(** What the read loop adds to the trace: it never closes the connection, it
    posts one request for each prompt of the connection, in order, and it
    begins one response for each. *)
Lemma readLoop_later conn tr :
  exists later,
    (readLoop ollama conn tr).2 = tr ++ later
    /\ (ConnClose ∉ later)
    /\ posted later = map (fun prompt => (endpoint, requestFor prompt)) (prompts conn)
    /\ starts (frames later) = length (prompts conn).
Proof.
  revert conn tr.
  apply (readLoop_run ollama
    (fun conn tr final =>
       exists later,
         final = tr ++ later
         /\ (ConnClose ∉ later)
         /\ posted later = map (fun prompt => (endpoint, requestFor prompt)) (prompts conn)
         /\ starts (frames later) = length (prompts conn))).
  - intros conn tr msg err conn' Hread.
    exists [Printf "WebSocket read error: %v" err].
    rewrite (prompts_fail _ _ _ _ Hread). repeat split.
    rewrite not_elem_of_cons. split; [discriminate|apply not_elem_of_nil].
  - intros conn tr msg conn' final Hread (later & -> & Hno & Hposted & Hstarts).
    exists (added ollama msg tr ++ later).
    rewrite (prompts_read _ _ _ Hread). repeat split.
    + rewrite dispatch_added, <- app_assoc. reflexivity.
    + rewrite not_elem_of_app. split; [apply no_close_added|exact Hno].
    + rewrite posted_app, posted_added, Hposted, map_app.
      destruct (interfaceEq _ _); reflexivity.
    + rewrite frames_app, starts_app, starts_added, Hstarts, length_app.
      destruct (interfaceEq _ _); reflexivity.
Qed.

(** The session after one message that was read: what its dispatch left,
    then what the loop adds for the rest of the connection, then the close. *)
Lemma session_after_read conn msg conn' tr :
  websocket.ReadJSON conn (∅ : gmap string json.value) = (msg, None, conn') ->
  exists later,
    (handleWebSocket ollama (inr conn) tr).2
      = (dispatch ollama msg tr).2 ++ later ++ [ConnClose]
    /\ (ConnClose ∉ later)
    /\ posted later = map (fun prompt => (endpoint, requestFor prompt)) (prompts conn')
    /\ starts (frames later) = length (prompts conn').
Proof.
  intros Hread. rewrite handleWebSocket_conn, readLoop_eq, Hread. simpl.
  destruct (readLoop_later conn' (dispatch ollama msg tr).2)
    as (later & -> & Hno & Hposted & Hstarts).
  exists later. rewrite <- app_assoc. auto.
Qed.

(** C3: when the call to the backend client fails, at the opening or in the
    middle of the stream, the frames of the prompt are [response_start], a
    chunk for each fragment delivered before the failure, one chunk with the
    fixed error text and one [response_end]; and the session goes on: the
    read loop continues with the rest of the connection, what was written
    stays, every further prompt of the connection gets its request to the
    backend and its [response_start], and the connection is only closed after
    them. *)
Theorem C3_backend_failure_is_reported conn msg conn' tr err :
  websocket.ReadJSON conn (∅ : gmap string json.value) = (msg, None, conn') ->
  msg !! "type" = Some (json.Str "message") ->
  (queryOllamaStreaming ollama (assertString (msg !! "content")) forward
     (tr ++ [WriteJSON response_start])).1 = Some err ->
  frames (dispatch ollama msg tr).2 =
    frames tr ++ [response_start]
      ++ map response_chunk
           (map Response
              (produced (ollama (length (requests tr))
                 (requestFor (assertString (msg !! "content"))))).1)
      ++ [response_chunk errorText; response_end]
  /\ readLoop ollama conn tr = readLoop ollama conn' (dispatch ollama msg tr).2
  /\ exists later,
       (handleWebSocket ollama (inr conn) tr).2
         = (dispatch ollama msg tr).2 ++ later ++ [ConnClose]
       /\ frames (handleWebSocket ollama (inr conn) tr).2 =
            frames tr ++ [response_start]
              ++ map response_chunk
                   (map Response
                      (produced (ollama (length (requests tr))
                         (requestFor (assertString (msg !! "content"))))).1)
              ++ [response_chunk errorText; response_end]
              ++ frames later
       /\ (ConnClose ∉ later)
       /\ posted later = map (fun prompt => (endpoint, requestFor prompt)) (prompts conn')
       /\ starts (frames later) = length (prompts conn').
Proof.
  intros Hread Htype%interfaceEq_message Herr.
  assert (frames (dispatch ollama msg tr).2 =
          frames tr ++ [response_start]
            ++ map response_chunk
                 (map Response
                    (produced (ollama (length (requests tr))
                       (requestFor (assertString (msg !! "content"))))).1)
            ++ [response_chunk errorText; response_end]) as Hframes; [|split; [exact Hframes|split]].
  - rewrite query_forward_error in Herr.
    rewrite requests_app in Herr. simpl in Herr. rewrite app_nil_r in Herr.
    pose proof (frames_dispatch_message ollama msg tr Htype) as Hfr. simpl in Hfr.
    pose proof (produced_wellEnded
      (ollama (length (requests tr)) (requestFor (assertString (msg !! "content"))))) as Hw.
    destruct (produced _) as [fragments e]. simpl in *.
    destruct e as [| |err']; simpl in Herr; try discriminate.
    simpl in Hw. rewrite Hfr, (frameOf_not_final _ Hw). reflexivity.
  - rewrite readLoop_eq, Hread. reflexivity.
  - destruct (session_after_read _ _ _ tr Hread) as (later & Heq & Hrest).
    exists later. split; [exact Heq|]. split; [|exact Hrest].
    rewrite Heq, !frames_app, Hframes.
    change (frames [ConnClose]) with (@nil OutboundFrame).
    rewrite app_nil_r, <- !app_assoc. reflexivity.
Qed.

(** C7, as amended: a message that is read without error and whose [type] is
    not the string "message" (another string, no [type] at all, a [type] that
    is not a string) causes nothing: its dispatch leaves the trace as it was,
    so no frame is written; and the session goes on: the read loop continues
    with the rest of the connection, every further prompt gets its request to
    the backend and its [response_start], and the connection is only closed
    after them. *)
Theorem C7_other_types_are_ignored conn msg conn' tr :
  websocket.ReadJSON conn (∅ : gmap string json.value) = (msg, None, conn') ->
  msg !! "type" <> Some (json.Str "message") ->
  dispatch ollama msg tr = (tt, tr)
  /\ readLoop ollama conn tr = readLoop ollama conn' tr
  /\ exists later,
       (handleWebSocket ollama (inr conn) tr).2 = tr ++ later ++ [ConnClose]
       /\ (ConnClose ∉ later)
       /\ posted later = map (fun prompt => (endpoint, requestFor prompt)) (prompts conn')
       /\ starts (frames later) = length (prompts conn').
Proof.
  intros Hread Htype.
  assert (dispatch ollama msg tr = (tt, tr)) as Hnone.
  { apply dispatch_other. unfold interfaceEq.
    destruct (msg !! "type") as [[]|]; try reflexivity.
    apply bool_decide_eq_false. congruence. }
  split; [exact Hnone|]. split.
  - rewrite readLoop_eq, Hread, Hnone. reflexivity.
  - destruct (session_after_read _ _ _ tr Hread) as (later & Heq & Hrest).
    rewrite Hnone in Heq. exists later. split; [exact Heq|exact Hrest].
Qed.

(** C9, as amended: a message that is read without error, of type "message",
    whose [content] is absent or is not a string is handled as the empty
    prompt, not as an error: the whole prompt-handling sequence runs for the
    empty prompt.  It begins with [response_start] and the request to the
    backend with the empty prompt, it ends with [response_end] as it does for
    any prompt, that is when the backend stream ends by a final fragment or by
    a failure; these events are in the trace of the session, which then goes
    on with the rest of the connection. *)
Theorem C9_missing_content_is_empty_prompt conn msg conn' tr :
  websocket.ReadJSON conn (∅ : gmap string json.value) = (msg, None, conn') ->
  msg !! "type" = Some (json.Str "message") ->
  (forall s, msg !! "content" <> Some (json.Str s)) ->
  dispatch ollama msg tr = promptSequence ollama EmptyString tr
  /\ (exists rest,
        (dispatch ollama msg tr).2 =
        tr ++ [WriteJSON response_start; Post endpoint (requestFor EmptyString)] ++ rest)
  /\ ((produced (ollama (length (requests tr)) (requestFor EmptyString))).2
        <> EndExhausted ->
      exists texts,
        frames (dispatch ollama msg tr).2 =
        frames tr ++ [response_start] ++ map response_chunk texts ++ [response_end])
  /\ prompts conn = EmptyString :: prompts conn'
  /\ exists rest later,
       (handleWebSocket ollama (inr conn) tr).2
         = tr ++ [WriteJSON response_start; Post endpoint (requestFor EmptyString)]
              ++ rest ++ later ++ [ConnClose]
       /\ (dispatch ollama msg tr).2 =
          tr ++ [WriteJSON response_start; Post endpoint (requestFor EmptyString)] ++ rest
       /\ (ConnClose ∉ later)
       /\ posted later = map (fun prompt => (endpoint, requestFor prompt)) (prompts conn')
       /\ starts (frames later) = length (prompts conn').
Proof.
  intros Hread Htype%interfaceEq_message Hcontent.
  assert (assertString (msg !! "content") = EmptyString) as Hempty.
  { unfold assertString. destruct (msg !! "content") as [[]|]; try reflexivity.
    edestruct Hcontent. reflexivity. }
  assert ((dispatch ollama msg tr).2 =
          tr ++ [WriteJSON response_start; Post endpoint (requestFor EmptyString)]
             ++ answered (ollama (length (requests tr)) (requestFor EmptyString))) as Hdisp.
  { rewrite (dispatch_message _ _ _ Htype), Hempty. reflexivity. }
  split; [|split; [|split; [|split]]].
  - rewrite (promptSequence_dispatch _ _ _ Htype), Hempty. reflexivity.
  - eexists. exact Hdisp.
  - intros Hend. apply (frames_bracket ollama msg tr Htype). rewrite Hempty. exact Hend.
  - rewrite (prompts_read _ _ _ Hread), Htype, Hempty. reflexivity.
  - destruct (session_after_read _ _ _ tr Hread) as (later & Heq & Hrest).
    exists (answered (ollama (length (requests tr)) (requestFor EmptyString))), later.
    split; [|split; [exact Hdisp|exact Hrest]].
    rewrite Heq, Hdisp, <- !app_assoc. reflexivity.
Qed.

(** X5: the events of handling a prompt place every pause: after the
    [response_start] and the POST come, for each fragment delivered and in
    their order, the write of its frame, followed at once by a sleep of 50 ms
    when the fragment is not final and by nothing when it is; then the close
    of the body; then, after a failure, the log line, the error chunk and
    [response_end].  There is no sleep anywhere else, and none at all when the
    POST fails.  The time slept for a prompt is therefore 50 ms times the
    number of fragments that are not final. *)
Theorem X5_pause_after_each_chunk msg tr :
  msg !! "type" = Some (json.Str "message") ->
  (dispatch ollama msg tr).2 =
    tr ++ [WriteJSON response_start;
           Post endpoint (requestFor (assertString (msg !! "content")))]
       ++ match ollama (length (requests tr))
                  (requestFor (assertString (msg !! "content"))) with
          | inl err =>
              [Printf "Ollama query error: %v" err;
               WriteJSON (response_chunk errorText); WriteJSON response_end]
          | inr resp =>
              flat_map paced (delivered (json.NewDecoder (http.Body resp))).1
                ++ [BodyClose]
                ++ match (delivered (json.NewDecoder (http.Body resp))).2 with
                   | EndError err =>
                       [Printf "Ollama query error: %v" err;
                        WriteJSON (response_chunk errorText); WriteJSON response_end]
                   | _ => []
                   end
          end
  /\ slept (dispatch ollama msg tr).2 =
     (slept tr
      + 50 * N.of_nat
          (length (notFinal
             (produced (ollama (length (requests tr))
                (requestFor (assertString (msg !! "content"))))).1)))%N.
Proof.
  intros Htype%interfaceEq_message.
  assert (forall fragments, forwarding fragments = flat_map paced fragments) as Hpaced.
  { intros fragments. unfold forwarding. apply flat_map_ext. intros fragment.
    unfold paced, frameOf. destruct (Done fragment); reflexivity. }
  split.
  - rewrite (dispatch_message _ _ _ Htype). simpl.
    destruct (ollama _ _) as [err|resp]; simpl; [reflexivity|].
    rewrite Hpaced. destruct (delivered _).2; reflexivity.
  - rewrite dispatch_added, slept_app. f_equal.
    unfold added. rewrite Htype. simpl.
    destruct (ollama _ _) as [err|resp]; simpl; [reflexivity|].
    rewrite slept_app, slept_forwarding. simpl. rewrite slept_epilogue. lia.
Qed.

End Continuation.

(** C7 as stated fails on a frame that does not decode: this one is a
    well-formed object whose [type] is "ping", not "message", and it ends the
    session, because a number in it does not fit a float64 and [ReadJSON]
    answers an error.  The prompt that follows it is never handled. *)
Lemma C7_unknown_type_can_end_session :
  json.readValue (json.NewDecoder bigPing)
    = inr (json.Object [("type", json.Str "ping"); ("x", json.Number "1e999")],
           EmptyString)
  /\ handleWebSocket helloBackend (inr [bigPing; promptHi]) []
     = (tt, [Printf "WebSocket read error: %v" (UnmarshalTypeError "number");
             ConnClose]).
Proof. split; vm_compute; reflexivity. Qed.

(** C9 as stated fails on a frame that does not decode: this one has type
    "message" and a content that is not a string, a number that does not fit
    a float64; it is handled as an error: [ReadJSON] fails, the session ends,
    and there is no [response_start] and no request to the backend. *)
Lemma C9_number_content_can_end_session :
  json.readValue (json.NewDecoder bigContent)
    = inr (json.Object [("type", json.Str "message"); ("content", json.Number "1e999")],
           EmptyString)
  /\ handleWebSocket helloBackend (inr [bigContent; promptHi]) []
     = (tt, [Printf "WebSocket read error: %v" (UnmarshalTypeError "number");
             ConnClose]).
Proof. split; vm_compute; reflexivity. Qed.

Lemma C3_witness :
  frames (dispatch brokenBackend msgHi []).2 =
    frames [] ++ [response_start]
      ++ map response_chunk
           (map Response
              (produced (brokenBackend (length (requests []))
                 (requestFor (assertString (msgHi !! "content"))))).1)
      ++ [response_chunk errorText; response_end]
  /\ readLoop brokenBackend [promptHi; promptHi] []
     = readLoop brokenBackend [promptHi] (dispatch brokenBackend msgHi []).2
  /\ exists later,
       (handleWebSocket brokenBackend (inr [promptHi; promptHi]) []).2
         = (dispatch brokenBackend msgHi []).2 ++ later ++ [ConnClose]
       /\ frames (handleWebSocket brokenBackend (inr [promptHi; promptHi]) []).2 =
            frames [] ++ [response_start]
              ++ map response_chunk
                   (map Response
                      (produced (brokenBackend (length (requests []))
                         (requestFor (assertString (msgHi !! "content"))))).1)
              ++ [response_chunk errorText; response_end]
              ++ frames later
       /\ (ConnClose ∉ later)
       /\ posted later = map (fun prompt => (endpoint, requestFor prompt)) (prompts [promptHi])
       /\ starts (frames later) = length (prompts [promptHi]).
Proof.
  apply (C3_backend_failure_is_reported brokenBackend
           [promptHi; promptHi] msgHi [promptHi] [] ErrUnexpectedEOF);
    vm_compute; reflexivity.
Defined.

Lemma C7_witness :
  dispatch helloBackend msgPing [] = (tt, [])
  /\ readLoop helloBackend [ping; promptHi] [] = readLoop helloBackend [promptHi] []
  /\ exists later,
       (handleWebSocket helloBackend (inr [ping; promptHi]) []).2
         = [] ++ later ++ [ConnClose]
       /\ (ConnClose ∉ later)
       /\ posted later = map (fun prompt => (endpoint, requestFor prompt)) (prompts [promptHi])
       /\ starts (frames later) = length (prompts [promptHi]).
Proof.
  apply (C7_other_types_are_ignored helloBackend [ping; promptHi] msgPing [promptHi] []).
  - vm_compute. reflexivity.
  - vm_compute. discriminate.
Defined.

Lemma C9_witness :
  dispatch helloBackend msgNoContent [] = promptSequence helloBackend EmptyString []
  /\ (exists rest,
        (dispatch helloBackend msgNoContent []).2 =
        [] ++ [WriteJSON response_start; Post endpoint (requestFor EmptyString)] ++ rest)
  /\ ((produced (helloBackend (length (requests [])) (requestFor EmptyString))).2
        <> EndExhausted ->
      exists texts,
        frames (dispatch helloBackend msgNoContent []).2 =
        frames [] ++ [response_start] ++ map response_chunk texts ++ [response_end])
  /\ prompts [noContent; promptHi] = EmptyString :: prompts [promptHi]
  /\ exists rest later,
       (handleWebSocket helloBackend (inr [noContent; promptHi]) []).2
         = [] ++ [WriteJSON response_start; Post endpoint (requestFor EmptyString)]
              ++ rest ++ later ++ [ConnClose]
       /\ (dispatch helloBackend msgNoContent []).2 =
          [] ++ [WriteJSON response_start; Post endpoint (requestFor EmptyString)] ++ rest
       /\ (ConnClose ∉ later)
       /\ posted later = map (fun prompt => (endpoint, requestFor prompt)) (prompts [promptHi])
       /\ starts (frames later) = length (prompts [promptHi]).
Proof.
  apply (C9_missing_content_is_empty_prompt helloBackend
           [noContent; promptHi] msgNoContent [promptHi] []).
  - vm_compute. reflexivity.
  - vm_compute. reflexivity.
  - intros s. vm_compute. discriminate.
Defined.

Lemma X5_witness :
  (dispatch helloBackend msgHi []).2 =
    [] ++ [WriteJSON response_start;
           Post endpoint (requestFor (assertString (msgHi !! "content")))]
       ++ match helloBackend (length (requests []))
                  (requestFor (assertString (msgHi !! "content"))) with
          | inl err =>
              [Printf "Ollama query error: %v" err;
               WriteJSON (response_chunk errorText); WriteJSON response_end]
          | inr resp =>
              flat_map paced (delivered (json.NewDecoder (http.Body resp))).1
                ++ [BodyClose]
                ++ match (delivered (json.NewDecoder (http.Body resp))).2 with
                   | EndError err =>
                       [Printf "Ollama query error: %v" err;
                        WriteJSON (response_chunk errorText); WriteJSON response_end]
                   | _ => []
                   end
          end
  /\ slept (dispatch helloBackend msgHi []).2 =
     (slept []
      + 50 * N.of_nat
          (length (notFinal
             (produced (helloBackend (length (requests []))
                (requestFor (assertString (msgHi !! "content"))))).1)))%N.
Proof.
  apply (X5_pause_after_each_chunk helloBackend msgHi []).
  vm_compute. reflexivity.
Defined.

(** The prompt of X5's run, event by event: a pause after each of the two
    chunks, none after [response_end]. *)
Example paced_run :
  (dispatch helloBackend msgHi []).2
  = [WriteJSON response_start; Post endpoint (requestFor "hi");
     WriteJSON (response_chunk "Hel"); Sleep 50;
     WriteJSON (response_chunk "lo"); Sleep 50;
     WriteJSON response_end; BodyClose].
Proof. vm_compute. reflexivity. Qed.

(** The session of C3's run: the second prompt is answered after the first
    one failed, and the connection is closed at the very end. *)
Example session_survives_backend_failure :
  (handleWebSocket (fun n _ => inr (http.mkResponse 200
                                      (if decide (n = 0) then brokenBody else helloBody)))
     (inr [promptHi; promptHi]) []).2
  = [WriteJSON response_start; Post endpoint (requestFor "hi");
     WriteJSON (response_chunk "Hi"); Sleep 50; BodyClose;
     Printf "Ollama query error: %v" ErrUnexpectedEOF;
     WriteJSON (response_chunk errorText); WriteJSON response_end;
     WriteJSON response_start; Post endpoint (requestFor "hi");
     WriteJSON (response_chunk "Hel"); Sleep 50;
     WriteJSON (response_chunk "lo"); Sleep 50;
     WriteJSON response_end; BodyClose;
     Printf "WebSocket read error: %v" (CloseError "close 1006 (abnormal closure)");
     ConnClose].
Proof. vm_compute. reflexivity. Qed.
